(** * dudero: [auxiliary/verify_threshold.py]

    A shallow embedding of [chi2_cdf_upper_tail] over IEEE binary64, which is
    what a Python [float] is.  Python floats are Rocq's primitive floats, the
    loop counter [n] is a [Z], raised exceptions are explicit outcomes, and the
    [while] loop is a fixpoint on a bound of body executions.  The arguments
    [x] and [df] are floats; an [int] such as the caller's [df = 15] enters
    the function through [df / 2.0] as the double of the same value.

    The Python [math] module is not part of the repository.  The function
    takes it as an argument ([MathModule]); [PyMath.cpython] is the module of
    CPython: [math.log], [math.lgamma] and [math.exp] with their error
    behaviour on doubles, over the numerical routines of the platform, which
    stay a parameter ([Libm]).

    The names [math] and [abs] are no locals of the function.
    [chi2_cdf_upper_tail_in] is the same code run in a namespace of globals
    and builtins, where each use of the two names is a lookup; in a
    namespace that binds them to a module and to the builtin it is
    [chi2_cdf_upper_tail] of that module ([chi2_in_namespace]).  The
    functions of a module are functions of their argument.

    The caller [verify_threshold] prints a report.  It is embedded as code
    that returns the lines printed and how the run ended; a line is kept as
    its literal text and its replacement fields, each a value with its format
    specification, so that no formatting of floats is modelled. *)

From Stdlib Require Import String ZArith Bool List Lia Uint63 Floats.
Import ListNotations.

Local Open Scope float_scope.

(** ** Outcomes of a Python call *)

Inductive PyExc : Set :=
| ValueError
| OverflowError
| ZeroDivisionError.

(** The result of an operation that cannot loop: a value or an exception. *)
Inductive result (A : Type) : Type :=
| Value (a : A)
| Error (e : PyExc).

Arguments Value {A} a.
Arguments Error {A} e.

(** The outcome of running code with a loop on a bounded number of body
    executions. *)
Inductive outcome (A : Type) : Type :=
| Ok (a : A)
| Raise (e : PyExc)
| OutOfFuel.

Arguments Ok {A} a.
Arguments Raise {A} e.
Arguments OutOfFuel {A}.

Definition of_result {A : Type} (r : result A) : outcome A :=
  match r with
  | Value a => Ok a
  | Error e => Raise e
  end.

Coercion of_result : result >-> outcome.

Definition bind {A B : Type} (o : outcome A) (f : A -> outcome B) : outcome B :=
  match o with
  | Ok a => f a
  | Raise e => Raise e
  | OutOfFuel => OutOfFuel
  end.

Notation "x <- c ;; k" := (bind c (fun x => k))
  (at level 61, c at next level, right associativity).

(** ** Python float arithmetic *)

Module PyFloat.

(** [a / b]: true division of floats raises on a zero divisor. *)
Definition truediv (a b : float) : result float :=
  if b =? 0 then Error ZeroDivisionError else Value (a / b).

(** The conversion of a Python [int] met in [float + int]; exact for
    [0 <= n < 2^53], and the loop counter stays below 2000. *)
Definition of_int (n : Z) : float := of_uint63 (Uint63.of_Z n).

(** A double with an integer value. *)
Definition is_integral (x : float) : bool :=
  match Prim2SF x with
  | S754_zero _ => true
  | S754_finite _ m e =>
      (0 <=? e)%Z || (Z.land (Zpos m) (Z.ones (- e)) =? 0)%Z
  | _ => false
  end.

End PyFloat.

(** ** The [math] module *)

(** What the function uses of the module bound to the global name [math]. *)
Record MathModule : Type := {
  math_log : float -> result float;
  math_lgamma : float -> result float;
  math_exp : float -> result float
}.

(** The numerical routines under CPython's [math]. *)
Record Libm : Type := {
  libm_log : float -> float;      (* log of a finite positive double *)
  libm_lgamma : float -> float;   (* lgamma away from its poles *)
  libm_exp : float -> float       (* exp *)
}.

Module PyMath.

(** [math.log(x)] on a float: a domain error for [x <= 0], and for a result
    that is not finite on a finite argument. *)
Definition log (M : Libm) (x : float) : result float :=
  if is_nan x then Value x
  else if x <=? 0 then Error ValueError
  else if is_infinity x then Value x
  else
    let r := libm_log M x in
    if is_nan r || is_infinity r then Error ValueError else Value r.

(** [math.lgamma(x)]: a domain error at the poles (the integers [<= 0]), a
    range error when the result overflows. *)
Definition lgamma (M : Libm) (x : float) : result float :=
  if is_nan x then Value x
  else if is_infinity x then Value infinity
  else if PyFloat.is_integral x && (x <=? 0) then Error ValueError
  else
    let r := libm_lgamma M x in
    if is_infinity r then Error OverflowError else Value r.

(** [math.exp(x)]: a range error when the result overflows; an underflow to
    zero is returned as it is. *)
Definition exp (M : Libm) (x : float) : result float :=
  let r := libm_exp M x in
  if is_nan r && negb (is_nan x) then Error ValueError
  else if is_infinity r && is_finite x then Error OverflowError
  else Value r.

Definition cpython (M : Libm) : MathModule :=
  {| math_log := log M; math_lgamma := lgamma M; math_exp := exp M |}.

(** A module whose every function raises: a call of it never goes unseen. *)
Definition raising : MathModule :=
  {| math_log := fun _ => Error ValueError;
     math_lgamma := fun _ => Error ValueError;
     math_exp := fun _ => Error OverflowError |}.

End PyMath.

(** ** The function *)

(** The variables the loop updates. *)
Record loop_state : Type := {
  sum_val : float;
  term : float;
  n : Z
}.

(** [sum_val = 1.0; term = 1.0; n = 1] *)
Definition loop_init : loop_state :=
  {| sum_val := 1; term := 1; n := 1 |}.

(** 1e-15 as a double. *)
Definition tolerance : float := 0x1.203af9ee75616p-50.

(** [abs(term) > 1e-15 and n < 2000] *)
Definition loop_cond (st : loop_state) : bool :=
  (tolerance <? abs (term st)) && (n st <? 2000)%Z.

(** [term *= t / (k + n); sum_val += term; n += 1] *)
Definition loop_body (t k : float) (st : loop_state) : outcome loop_state :=
  r <- PyFloat.truediv t (k + PyFloat.of_int (n st)) ;;
  let term' := term st * r in
  Ok {| sum_val := sum_val st + term'; term := term'; n := n st + 1 |}.

(** The [while] statement; [fuel] bounds the executions of the body. *)
Fixpoint while (fuel : nat) (t k : float) (st : loop_state)
  : outcome loop_state :=
  if loop_cond st then
    match fuel with
    | O => OutOfFuel
    | S fuel' => st' <- loop_body t k st ;; while fuel' t k st'
    end
  else Ok st.

Definition chi2_cdf_upper_tail (math : MathModule) (fuel : nat) (x df : float)
  : outcome float :=
  k <- PyFloat.truediv df 2 ;;
  t <- PyFloat.truediv x 2 ;;
  if x <=? 0 then Ok 1
  else
    l <- math_log math t ;;
    g <- math_lgamma math (k + 1) ;;
    let log_term := k * l - t - g in
    st <- while fuel t k loop_init ;;
    e <- math_exp math log_term ;;
    let cdf := e * sum_val st in
    Ok (1 - cdf).

(** One execution of the loop body, as a step relation, and the states the
    loop goes through from [loop_init]. *)
Inductive loop_step (t k : float) : loop_state -> loop_state -> Prop :=
| loop_step_intro st st' :
    loop_cond st = true -> loop_body t k st = Ok st' -> loop_step t k st st'.

Inductive reached (t k : float) : loop_state -> Prop :=
| reached_init : reached t k loop_init
| reached_next st st' :
    reached t k st -> loop_step t k st st' -> reached t k st'.

(** What is left of the cap: the loop cannot run its body more often. *)
Definition budget_left (st : loop_state) : nat := Z.to_nat (2000 - n st).

(** ** The series as the specification words it *)

Module Spec.

(** [term] after [i] updates: it starts at 1 and the [i]-th update multiplies
    it by [t / (k + i)]. *)
Fixpoint series_term (t k : float) (i : nat) : float :=
  match i with
  | O => 1
  | S j => series_term t k j * (t / (k + PyFloat.of_int (Z.of_nat i)))
  end.

(** [sum] after [i] updates: it starts at 1 and each update adds the new
    term. *)
Fixpoint series_sum (t k : float) (i : nat) : float :=
  match i with
  | O => 1
  | S j => series_sum t k j + series_term t k i
  end.

(** The absolute convergence threshold: [|term| <= 1e-15]. *)
Definition converged (t k : float) (i : nat) : bool :=
  abs (series_term t k i) <=? tolerance.

(** The loop goes on after [i] updates: the term is above the threshold and
    the counter, [i + 1], is below 2000. *)
Definition continues (t k : float) (i : nat) : bool :=
  (tolerance <? abs (series_term t k i)) && (Z.of_nat i + 1 <? 2000)%Z.

(** The first index from [i] on, within [budget] steps, at which the loop
    does not go on. *)
Fixpoint first_stop (t k : float) (budget i : nat) : nat :=
  match budget with
  | O => i
  | S b => if continues t k i then first_stop t k b (S i) else i
  end.

(** The number of updates the series gets. *)
Definition stop_index (t k : float) : nat := first_stop t k 1999 0.

(** The partial series sum [S]. *)
Definition partial_sum (t k : float) : float :=
  series_sum t k (stop_index t k).

(** The loop variables after [i] updates. *)
Definition state_at (t k : float) (i : nat) : loop_state :=
  {| sum_val := series_sum t k i;
     term := series_term t k i;
     n := Z.of_nat i + 1 |}.

(** [1.0 - exp(log_term) * S] with [log_term = k*ln(t) - t - lnGamma(k+1)],
    [k = df/2] and [t = x/2]. *)
Definition upper_tail (math : MathModule) (x df : float) : outcome float :=
  let k := df / 2 in
  let t := x / 2 in
  l <- math_log math t ;;
  g <- math_lgamma math (k + 1) ;;
  e <- math_exp math (k * l - t - g) ;;
  Ok (1 - e * partial_sum t k).

End Spec.

(** ** Ranges of results *)

(** A probability: [0 <= v <= 1]. *)
Definition in_unit_interval (v : float) : bool := (0 <=? v) && (v <=? 1).

Definition returns_probability (o : outcome float) : bool :=
  match o with
  | Ok v => in_unit_interval v
  | _ => false
  end.

(** [9.99e-6 <= v <= 1.01e-5]: within 1% of 1e-5. *)
Definition within_1pct_of_1e_5 (v : float) : bool :=
  (0x1.4f357252adccdp-17 <=? v) && (v <=? 0x1.52e656e18e24fp-17).

(** [1.20e-5 <= v <= 1.21e-5] *)
Definition between_120_and_121e_7 (v : float) : bool :=
  (0x1.92a737110e454p-17 <=? v) && (v <=? 0x1.9602356465db2p-17).

(** Bit-identical doubles. *)
Definition identical (a b : float) : Prop := Leibniz.eqb a b = true.

(** The same argument passed twice: bit-identical doubles (so also a NaN
    passed again), or doubles that compare equal with [==] (so also [0.0]
    and [-0.0]). *)
Definition same_argument (a b : float) : Prop :=
  identical a b \/ (a =? b) = true.

(** ** Positive and non-negative doubles, on their specification *)

(** A positive double of magnitude (digits plus exponent) at least [z],
    that is, a double [>= 2^(z-1)]. *)
Definition at_least (z : Z) (f : spec_float) : Prop :=
  match f with
  | S754_infinity false => True
  | S754_finite false m e => (z <= Zpos (digits2_pos m) + e)%Z
  | _ => False
  end.

Definition nonneg (f : spec_float) : Prop :=
  match f with
  | S754_zero _ | S754_finite false _ _ | S754_infinity false => True
  | _ => False
  end.

Definition strictly_pos (f : spec_float) : Prop :=
  match f with
  | S754_finite false _ _ | S754_infinity false => True
  | _ => False
  end.

(** ** Accuracy of a libm *)

(** [r] steps of [step] from [c]. *)
Fixpoint walk (step : float -> float) (r : nat) (c : float) : list float :=
  match r with
  | O => []
  | S r' => step c :: walk step r' (step c)
  end.

(** The doubles within [r] units in the last place of [c]. *)
Definition ulp_ball (c : float) (r : nat) : list float :=
  rev (walk next_down r c) ++ c :: walk next_up r c.

Definition near (r : nat) (c v : float) : bool :=
  existsb (Leibniz.eqb v) (ulp_ball c r).

(** The values [log_term] takes for the given values of log and lgamma. *)
Definition log_terms (k t : float) (ls gs : list float) : list float :=
  flat_map (fun l => map (fun g => k * l - t - g) gs) ls.

Module Ref.

(** ln 25, correctly rounded. *)
Definition ln_25 : float := 0x1.9c041f7ed8d33p+1.
(** lnGamma(8.5), correctly rounded. *)
Definition lgamma_8_5 : float := 0x1.319398ed5be28p+3.
(** exp(7.5 * ln_25 - 25 - lgamma_8_5), correctly rounded. *)
Definition exp_50_15 : float := 0x1.faa82119ecc92p-16.
(** ln 2500, correctly rounded. *)
Definition ln_2500 : float := 0x1.f4bd2b7ac1bafp+2.
(** lnGamma(1.5), correctly rounded. *)
Definition lgamma_1_5 : float := -0x1.eeb95b094c191p-4.

End Ref.

(** A libm that is accurate where [chi2_cdf_upper_tail(50.0, 15)] calls it:
    log within 2 ulps, lgamma within 16 ulps, and exp within 512 ulps of
    [Ref.exp_50_15] on every [log_term] these allow (over them the exact
    exponential moves by less than 320 ulps). *)
Definition accurate_at_50_15 (M : Libm) : bool :=
  near 2 Ref.ln_25 (libm_log M 25)
  && near 16 Ref.lgamma_8_5 (libm_lgamma M 8.5)
  && forallb (fun y => near 512 Ref.exp_50_15 (libm_exp M y))
       (log_terms 7.5 25 (ulp_ball Ref.ln_25 2) (ulp_ball Ref.lgamma_8_5 16)).

(** A libm that is accurate where [chi2_cdf_upper_tail(5000.0, 1)] calls it:
    log within 2 ulps, lgamma within 64 ulps, and exp underflows to zero on
    every [log_term] these allow (all of them are below -2495). *)
Definition accurate_at_5000_1 (M : Libm) : bool :=
  near 2 Ref.ln_2500 (libm_log M 2500)
  && near 64 Ref.lgamma_1_5 (libm_lgamma M 1.5)
  && forallb (fun y => (y <=? -746) && Leibniz.eqb (libm_exp M y) 0)
       (log_terms 0.5 2500 (ulp_ball Ref.ln_2500 2) (ulp_ball Ref.lgamma_1_5 64)).

(** A libm tabulated at the arguments above, for running the function. *)
Definition sample_libm : Libm :=
  {| libm_log := fun x =>
       if Leibniz.eqb x 25 then Ref.ln_25
       else if Leibniz.eqb x 2500 then Ref.ln_2500
       else 0;
     libm_lgamma := fun x =>
       if Leibniz.eqb x 8.5 then Ref.lgamma_8_5
       else if Leibniz.eqb x 1.5 then Ref.lgamma_1_5
       else 0;
     libm_exp := fun y =>
       if y <=? -746 then 0
       else if (-11 <=? y) && (y <=? -10) then Ref.exp_50_15
       else 1 |}.

(** The partial series sum of [chi2_cdf_upper_tail(50.0, 15)]. *)
Definition sum_50_15 : float :=
  Eval vm_compute in
    match while 1999 25 7.5 loop_init with
    | Ok st => sum_val st
    | _ => nan
    end.

(** What [exp] may return at [x = 50.0], [df = 15]: a finite [e] for which
    [1 - e * sum_50_15] is between 1.20e-5 and 1.21e-5 and not within 1% of
    1e-5. *)
Definition value_50_15_ok (e : float) : bool :=
  is_finite e
  && between_120_and_121e_7 (1 - e * sum_50_15)
  && negb (within_1pct_of_1e_5 (1 - e * sum_50_15)).

(** The smallest positive double, 2^-1074 (5e-324). *)
Definition min_subnormal : float := 0x1p-1074.

(** ** The names the function reads *)

(** What a global or builtin name may be bound to, as far as the function
    can tell: a module with [log], [lgamma] and [exp], a callable on floats,
    or an object that is neither. *)
Inductive PyObj : Type :=
| ModuleObj (m : MathModule)
| Callable (f : float -> result float)
| OtherObj.

(** The state outside a call: the global names of the module and the
    builtins.  The binding met first is the one in force. *)
Record Namespace : Type := {
  globals : list (String.string * PyObj);
  builtins : list (String.string * PyObj)
}.

Fixpoint lookup (name : String.string) (d : list (String.string * PyObj))
  : option PyObj :=
  match d with
  | [] => None
  | (key, o) :: rest =>
      if String.eqb name key then Some o else lookup name rest
  end.

(** A name that is no local: the globals first, then the builtins. *)
Definition resolve (name : String.string) (ns : Namespace) : option PyObj :=
  match lookup name (globals ns) with
  | Some o => Some o
  | None => lookup name (builtins ns)
  end.

(** The exceptions of names, attributes and calls, which the arithmetic
    never raises. *)
Inductive NameExc : Type :=
| NameError (name : String.string)
| AttributeError (attr : String.string)
| TypeError.

(** How code run in a namespace ends. *)
Inductive reply (A : Type) : Type :=
| Completed (o : outcome A)
| Failed (e : NameExc).

Arguments Completed {A} o.
Arguments Failed {A} e.

(** Code run in a namespace: the namespace it leaves, and how it ends. *)
Definition Stateful (A : Type) : Type := Namespace -> Namespace * reply A.

Definition unit_in {A : Type} (a : A) : Stateful A :=
  fun ns => (ns, Completed (Ok a)).

(** Arithmetic, which reads no name. *)
Definition lift_in {A : Type} (o : outcome A) : Stateful A :=
  fun ns => (ns, Completed o).

Definition fail_in {A : Type} (e : NameExc) : Stateful A :=
  fun ns => (ns, Failed e).

Definition bind_in {A B : Type} (c : Stateful A) (f : A -> Stateful B)
  : Stateful B :=
  fun ns =>
    match c ns with
    | (ns', Completed (Ok a)) => f a ns'
    | (ns', Completed (Raise e)) => (ns', Completed (Raise e))
    | (ns', Completed OutOfFuel) => (ns', Completed OutOfFuel)
    | (ns', Failed e) => (ns', Failed e)
    end.

Notation "x <<- c ;; k" := (bind_in c (fun x => k))
  (at level 61, c at next level, right associativity).

(** The use of a name that is no local. *)
Definition load_name (name : String.string) : Stateful PyObj :=
  fun ns =>
    (ns, match resolve name ns with
         | Some o => Completed (Ok o)
         | None => Failed (NameError name)
         end).

(** [name = o] at module level, as [import math] does for [math]. *)
Definition store_global (name : String.string) (o : PyObj) : Stateful unit :=
  fun ns =>
    ({| globals := (name, o) :: globals ns; builtins := builtins ns |},
     Completed (Ok tt)).

(** [o.attr] *)
Definition getattr (o : PyObj) (attr : String.string) : Stateful PyObj :=
  match o with
  | ModuleObj m =>
      if String.eqb attr "log" then unit_in (Callable (math_log m))
      else if String.eqb attr "lgamma" then unit_in (Callable (math_lgamma m))
      else if String.eqb attr "exp" then unit_in (Callable (math_exp m))
      else fail_in (AttributeError attr)
  | _ => fail_in (AttributeError attr)
  end.

(** [o(arg)] *)
Definition call_obj (o : PyObj) (arg : float) : Stateful float :=
  match o with
  | Callable f => lift_in (f arg)
  | _ => fail_in TypeError
  end.

(** [math.attr(arg)]: the name [math], its attribute, the call. *)
Definition call_math (attr : String.string) (arg : float) : Stateful float :=
  m <<- load_name "math" ;;
  f <<- getattr m attr ;;
  call_obj f arg.

(** [abs(v)] *)
Definition call_abs (v : float) : Stateful float :=
  f <<- load_name "abs" ;;
  call_obj f v.

(** The builtin [abs] on a float. *)
Definition builtin_abs : PyObj := Callable (fun v => Value (abs v)).

(** [abs(term) > 1e-15 and n < 2000] *)
Definition loop_cond_in (st : loop_state) : Stateful bool :=
  a <<- call_abs (term st) ;;
  unit_in ((tolerance <? a) && (n st <? 2000)%Z).

(** The [while] statement, in a namespace. *)
Fixpoint while_in (fuel : nat) (t k : float) (st : loop_state)
  : Stateful loop_state :=
  c <<- loop_cond_in st ;;
  if c then
    match fuel with
    | O => lift_in OutOfFuel
    | S fuel' =>
        st' <<- lift_in (loop_body t k st) ;;
        while_in fuel' t k st'
    end
  else unit_in st.

(** [chi2_cdf_upper_tail(x, df)] run in a namespace: [k], [t], [log_term],
    [sum_val], [term], [n] and [cdf] are its locals, [math] and [abs] are
    not. *)
Definition chi2_cdf_upper_tail_in (fuel : nat) (x df : float)
  : Stateful float :=
  k <<- lift_in (PyFloat.truediv df 2) ;;
  t <<- lift_in (PyFloat.truediv x 2) ;;
  if x <=? 0 then unit_in 1
  else
    l <<- call_math "log" t ;;
    g <<- call_math "lgamma" (k + 1) ;;
    let log_term := k * l - t - g in
    st <<- while_in fuel t k loop_init ;;
    e <<- call_math "exp" log_term ;;
    let cdf := e * sum_val st in
    unit_in (1 - cdf).

(** The namespace of the module after [import math], under CPython. *)
Definition cpython_namespace (M : Libm) : Namespace :=
  {| globals := [("math"%string, ModuleObj (PyMath.cpython M))];
     builtins := [("abs"%string, builtin_abs)] |}.

(** Two namespaces in which [math] and [abs] are the same objects. *)
Definition same_names (ns1 ns2 : Namespace) : Prop :=
  resolve "math" ns1 = resolve "math" ns2 /\
  resolve "abs" ns1 = resolve "abs" ns2.

(** Code that leaves the namespace as it was, and ends alike in two
    namespaces in which [math] and [abs] are the same objects. *)
Definition reads_only_math_and_abs {A : Type} (c : Stateful A) : Prop :=
  (forall ns, fst (c ns) = ns) /\
  (forall ns1 ns2, same_names ns1 ns2 -> snd (c ns1) = snd (c ns2)).

(** ** Infinities, NaNs and poles *)

(** A double that is [+inf] or a NaN. *)
Definition inf_or_nan (v : float) : Prop :=
  Prim2SF v = S754_infinity false \/ Prim2SF v = S754_nan.

(** With [k = -n] for a loop counter [n], [k + 1] is a pole. *)
Definition pole_at (i : nat) : bool :=
  let a := - PyFloat.of_int (Z.of_nat i) + 1 in
  PyFloat.is_integral a && (a <=? 0).

(** A libm whose lgamma overflows everywhere. *)
Definition overflowing_libm : Libm :=
  {| libm_log := fun _ => 0;
     libm_lgamma := fun _ => infinity;
     libm_exp := fun _ => 0 |}.

(** ** The report of [verify_threshold] *)

(** A piece of a printed line: literal text, or a replacement field of an
    f-string, kept as the value and its format specification. *)
Inductive fragment : Type :=
| Text (s : String.string)
| FloatField (v : float) (spec : String.string)
| IntField (i : Z) (spec : String.string)
| StrField (s : String.string) (spec : String.string).

(** The argument of one [print] call; [print()] prints the empty line. *)
Definition line : Type := list fragment.

(** Code that prints: the lines printed so far, and how it ended. *)
Definition Run (A : Type) : Type := (list line * outcome A)%type.

Definition done {A : Type} (a : A) : Run A := ([], Ok a).

Definition print (l : line) : Run unit := ([l], Ok tt).

(** A call of a function that prints nothing. *)
Definition call {A : Type} (o : outcome A) : Run A := ([], o).

Definition and_then {A B : Type} (m : Run A) (f : A -> Run B) : Run B :=
  match snd m with
  | Ok a => let r := f a in (fst m ++ fst r, snd r)
  | Raise e => (fst m, Raise e)
  | OutOfFuel => (fst m, OutOfFuel)
  end.

Notation "x <~ c ;; k" := (and_then c (fun x => k))
  (at level 61, c at next level, right associativity).
Notation "c ;;; k" := (and_then c (fun _ => k))
  (at level 61, right associativity).

(** The [for] statement over a list. *)
Fixpoint for_each {A : Type} (l : list A) (body : A -> Run unit) : Run unit :=
  match l with
  | [] => done tt
  | a :: rest => body a ;;; for_each rest body
  end.

(** [s * n] on a string. *)
Fixpoint str_times (s : String.string) (n : nat) : String.string :=
  match n with
  | O => String.EmptyString
  | S n' => String.append s (str_times s n')
  end.

(** [math.log2(x)] over the platform's routine: a domain error for
    [x <= 0], and for a result that is not finite on a finite argument. *)
Definition cpython_log2 (libm_log2 : float -> float) (x : float)
  : result float :=
  if is_nan x then Value x
  else if x <=? 0 then Error ValueError
  else if is_infinity x then Value x
  else
    let r := libm_log2 x in
    if is_nan r || is_infinity r then Error ValueError else Value r.

(** The rows of the comparison table. *)
Definition thresholds : list (float * String.string * String.string) :=
  [ (0x1.2d9999999999ap+5, "1 in 1,000", "Aggressive testing");
    (0x1.62147ae147ae1p+5, "1 in 10,000", "Balanced");
    (50, "1 in 100,000", "Conservative (current)");
    (0x1.c3eb851eb851fp+5, "1 in 1,000,000", "Very conservative") ]%string.

Definition rule_double : line := [Text (str_times "=" 70)].
Definition rule_single : line := [Text (str_times "-" 70)].

Definition verify_threshold (math : MathModule)
  (math_log2 : float -> result float) (fuel : nat) : Run unit :=
  let threshold := 50 in
  let df := 15%Z in
  print rule_double ;;;
  print [Text "Mathematical Verification of Threshold = 50.0"] ;;;
  print rule_double ;;;
  print [] ;;;
  print [Text "Chi-Squared Goodness-of-Fit Test"] ;;;
  print rule_single ;;;
  print [] ;;;
  print [Text "Test statistic: χ² = Σ(Oᵢ - E)² / E"] ;;;
  print [Text "Degrees of freedom: df = "; IntField df "";
         Text " (16 bins - 1)"] ;;;
  print [Text "Null hypothesis: Data comes from uniform distribution"] ;;;
  print [] ;;;
  print [Text "Under H₀, the test statistic follows χ²(15) distribution"] ;;;
  print [] ;;;
  fpr <~ call (chi2_cdf_upper_tail math fuel threshold (PyFloat.of_int df)) ;;
  print rule_double ;;;
  print [Text "Result"] ;;;
  print rule_double ;;;
  print [] ;;;
  print [Text "Threshold: χ² = "; FloatField threshold ""] ;;;
  print [Text "P(χ² > "; FloatField threshold ""; Text " | df=";
         IntField df ""; Text ") = "; FloatField fpr ".10f"] ;;;
  print [] ;;;
  print [Text "False Positive Rate:"] ;;;
  print [Text "  Scientific notation: "; FloatField fpr ".6e"] ;;;
  odds <~ call (PyFloat.truediv (PyFloat.of_int 1) fpr) ;;
  print [Text "  As fraction: 1 in "; FloatField odds ".0f"] ;;;
  print [Text "  As percentage: "; FloatField (fpr * PyFloat.of_int 100) ".5f";
         Text "%"] ;;;
  print [] ;;;
  let target := 0x1.4f8b588e368f1p-17 in
  let error := abs (fpr - target) in
  ratio <~ call (PyFloat.truediv error target) ;;
  let relative_error := ratio * PyFloat.of_int 100 in
  target_odds <~ call (PyFloat.truediv (PyFloat.of_int 1) target) ;;
  print [Text "Target FPR: "; FloatField target ".6e"; Text " (1 in ";
         FloatField target_odds ".0f"; Text ")"] ;;;
  print [Text "Absolute error: "; FloatField error ".6e"] ;;;
  print [Text "Relative error: "; FloatField relative_error ".2f";
         Text "%"] ;;;
  print [] ;;;
  (if relative_error <? PyFloat.of_int 1
   then print [Text "✓ Threshold verified: FPR matches target within 1%"]
   else print [Text "⚠ Warning: Relative error is ";
               FloatField relative_error ".2f"; Text "%"]) ;;;
  print [] ;;;
  log2_value <~ call (math_log2 (PyFloat.of_int 1 - fpr)) ;;
  let entropy_loss := - log2_value in
  print rule_double ;;;
  print [Text "Entropy Loss Analysis"] ;;;
  print rule_double ;;;
  print [] ;;;
  print [Text "Entropy loss per test: "; FloatField entropy_loss ".6e";
         Text " bits"] ;;;
  share <~ call (PyFloat.truediv entropy_loss (PyFloat.of_int 128)) ;;
  print [Text "For 128-bit string: "; FloatField entropy_loss ".10f";
         Text " bits ("; FloatField (share * PyFloat.of_int 100) ".7f";
         Text "%)"] ;;;
  print [] ;;;
  print [Text "Conclusion: Entropy loss is completely negligible"] ;;;
  print [] ;;;
  print rule_double ;;;
  print [Text "Common Threshold Values"] ;;;
  print rule_double ;;;
  print [] ;;;
  print [StrField "Threshold" "<12"; Text " "; StrField "FPR" "<15";
         Text " "; StrField "Rate" "<20"; Text " ";
         StrField "Use Case" "<25"] ;;;
  print rule_single ;;;
  for_each thresholds (fun '(t, rate_str, use_case) =>
    fpr_t <~ call (chi2_cdf_upper_tail math fuel t (PyFloat.of_int df)) ;;
    print [FloatField t "<12.2f"; Text " "; FloatField fpr_t "<15.6e";
           Text " "; StrField rate_str "<20"; Text " ";
           StrField use_case "<25"]) ;;;
  print [] ;;;
  print rule_double ;;;
  print [Text "Mathematical Foundation"] ;;;
  print rule_double ;;;
  print [] ;;;
  print [Text "The chi-squared CDF is computed using the incomplete gamma function:"] ;;;
  print [] ;;;
  print [Text "  P(χ² ≤ x) = γ(df/2, x/2) / Γ(df/2)"] ;;;
  print [] ;;;
  print [Text "Where:"] ;;;
  print [Text "  - γ(k, x) = ∫[0,x] t^(k-1) * e^(-t) dt  (lower incomplete gamma)"] ;;;
  print [Text "  - Γ(k) = ∫[0,∞] t^(k-1) * e^(-t) dt     (complete gamma)"] ;;;
  print [] ;;;
  print [Text "The false positive rate (FPR) is:"] ;;;
  print [] ;;;
  print [Text "  FPR = P(χ² > threshold) = 1 - P(χ² ≤ threshold)"] ;;;
  print [] ;;;
  print [Text "This probability is constant regardless of sample size, which is"] ;;;
  print [Text "a fundamental property of the chi-squared goodness-of-fit test."] ;;;
  print [].

(** The target false-positive rate, 1e-5 as a double. *)
Definition target_fpr : float := 0x1.4f8b588e368f1p-17.

(** [abs(fpr - target) / target * 100] *)
Definition relative_error_of (fpr : float) : float :=
  abs (fpr - target_fpr) / target_fpr * 100.

(** A printed line that starts with the literal text [s]. *)
Definition starts_with (s : String.string) (l : line) : bool :=
  match l with
  | Text s' :: _ => String.eqb s s'
  | _ => false
  end.

(** Some printed line starts with the literal text [s]. *)
Definition prints (s : String.string) (out : list line) : bool :=
  existsb (starts_with s) out.

Definition verified_text : String.string :=
  "✓ Threshold verified: FPR matches target within 1%".

Definition warning_text : String.string := "⚠ Warning: Relative error is ".

Definition warning_line (relative_error : float) : line :=
  [Text warning_text; FloatField relative_error ".2f"; Text "%"].

(** What [exp] may return at [x = 50.0], [df = 15] for the report: the
    rate is not zero and its relative error is between 20 and 21 percent. *)
Definition verdict_50_15_ok (e : float) : bool :=
  let fpr := 1 - e * sum_50_15 in
  is_finite e
  && negb (fpr =? 0)
  && negb (relative_error_of fpr <? 1)
  && (20 <=? relative_error_of fpr) && (relative_error_of fpr <=? 21).

(** The thresholds of the comparison table. *)
Definition table_thresholds : list float :=
  map (fun row => fst (fst row)) thresholds.

(** The row of the comparison table for the threshold in use. *)
Definition current_row (fpr : float) : line :=
  [FloatField 50 "<12.2f"; Text " "; FloatField fpr "<15.6e"; Text " ";
   StrField "1 in 100,000" "<20"; Text " ";
   StrField "Conservative (current)" "<25"]%string.

(** A libm under which the call at [x = 50.0], [df = 15] returns [0.0]:
    its exp returns the double [e] with [e * sum_50_15 = 1.0]. *)
Definition zero_rate_libm : Libm :=
  {| libm_log := fun _ => 0;
     libm_lgamma := fun _ => 0;
     libm_exp := fun _ => 0x1.faa9b0ecd5be2p-16 |}.

(** * Facts on binary64 *)

(** ** Rounding, on the specification of the operations *)

Module SF.
Local Open Scope Z_scope.

Lemma compare_antisym (a b : spec_float) :
  SFcompare b a = option_map CompOpp (SFcompare a b).
Proof.
  destruct a as [sa|sa| |sa ma ea], b as [sb|sb| |sb mb eb]; simpl;
    try reflexivity;
    try (destruct sa; reflexivity); try (destruct sb; reflexivity);
    try (destruct sa, sb; reflexivity).
  change (Pos.compare_cont Eq ma mb) with (Pos.compare ma mb).
  change (Pos.compare_cont Eq mb ma) with (Pos.compare mb ma).
  rewrite (Z.compare_antisym ea eb), (Pos.compare_antisym ma mb).
  destruct sa, sb; simpl; try reflexivity;
    destruct (ea ?= eb); simpl; try reflexivity;
    destruct (Pos.compare ma mb); reflexivity.
Qed.

Lemma digits2_pos_size (p : positive) : digits2_pos p = Pos.size p.
Proof. induction p; simpl; congruence. Qed.

Lemma Zdigits2_log2 (m : Z) : 0 < m -> Zdigits2 m = Z.log2 m + 1.
Proof.
  destruct m as [|p|p]; try lia. intros _. simpl.
  rewrite digits2_pos_size. destruct p; simpl; lia.
Qed.

Lemma Zdigits2_le (a b : Z) : 0 < a -> a <= b -> Zdigits2 a <= Zdigits2 b.
Proof.
  intros Ha Hab. rewrite !Zdigits2_log2 by lia.
  pose proof (Z.log2_le_mono a b Hab). lia.
Qed.

(** One right shift of the rounding record halves a mantissa. *)
Lemma shr_1_m (mrs : shr_record) :
  0 <= shr_m mrs -> shr_m (shr_1 mrs) = Z.shiftr (shr_m mrs) 1.
Proof.
  destruct mrs as [m r s]. simpl. intros Hm.
  rewrite <- Z.div2_spec.
  destruct m as [|[p|p|]|p]; try reflexivity; lia.
Qed.

Lemma iter_shr_1_m (p : positive) : forall mrs,
  0 <= shr_m mrs ->
  shr_m (iter_pos shr_1 p mrs) = Z.shiftr (shr_m mrs) (Zpos p).
Proof.
  induction p as [p IH|p IH|]; intros mrs Hm; simpl.
  - assert (H1 : 0 <= shr_m (shr_1 mrs))
      by (rewrite shr_1_m by assumption; apply Z.shiftr_nonneg; assumption).
    assert (H2 : 0 <= shr_m (iter_pos shr_1 p (shr_1 mrs)))
      by (rewrite IH by assumption; apply Z.shiftr_nonneg; assumption).
    rewrite IH, IH, shr_1_m by assumption.
    rewrite !Z.shiftr_shiftr by lia. f_equal. lia.
  - assert (H2 : 0 <= shr_m (iter_pos shr_1 p mrs))
      by (rewrite IH by assumption; apply Z.shiftr_nonneg; assumption).
    rewrite IH, IH by assumption.
    rewrite !Z.shiftr_shiftr by lia. f_equal. lia.
  - apply shr_1_m; assumption.
Qed.

Lemma shr_record_of_loc_m (m : Z) (l : location) :
  shr_m (shr_record_of_loc m l) = m.
Proof. destruct l as [|[| |]]; reflexivity. Qed.

(** [shr_fexp] shifts the mantissa right by the distance to the canonical
    exponent, when that is positive. *)
Lemma shr_fexp_m (m e : Z) (l : location) :
  0 <= m ->
  let d := Z.max 0 (fexp prec emax (Zdigits2 m + e) - e) in
  shr_m (fst (shr_fexp prec emax m e l)) = Z.shiftr m d /\
  snd (shr_fexp prec emax m e l) = e + d.
Proof.
  intros Hm d. unfold shr_fexp, shr. subst d.
  destruct (fexp prec emax (Zdigits2 m + e) - e) as [|p|p] eqn:E;
    cbn [fst snd].
  - rewrite shr_record_of_loc_m. split; [reflexivity | lia].
  - rewrite iter_shr_1_m by (rewrite shr_record_of_loc_m; assumption).
    rewrite shr_record_of_loc_m. split; reflexivity.
  - rewrite shr_record_of_loc_m. split; [reflexivity | lia].
Qed.

(** Above the smallest subnormal the shift keeps a positive mantissa
    positive, and the magnitude as it is. *)
Lemma shr_fexp_pos (m e : Z) (l : location) :
  0 < m -> SpecFloat.emin prec emax < Zdigits2 m + e ->
  let m' := shr_m (fst (shr_fexp prec emax m e l)) in
  let e' := snd (shr_fexp prec emax m e l) in
  0 < m' /\ Zdigits2 m' + e' = Zdigits2 m + e.
Proof.
  intros Hm Hmag.
  destruct (shr_fexp_m m e l) as [Em Ee]; [lia|].
  cbv zeta. rewrite Em, Ee.
  set (d := Z.max 0 (fexp prec emax (Zdigits2 m + e) - e)).
  assert (Hd : Zdigits2 m = Z.log2 m + 1) by (apply Zdigits2_log2; assumption).
  assert (Hn : 0 <= d <= Z.log2 m).
  { subst d. unfold fexp, SpecFloat.emin, prec, emax in *.
    pose proof (Z.log2_nonneg m). lia. }
  assert (Hlog : Z.log2 (Z.shiftr m d) = Z.log2 m - d)
    by (rewrite Z.log2_shiftr by assumption; lia).
  assert (Hpos : 0 < Z.shiftr m d).
  { destruct (Z.eq_dec (Z.shiftr m d) 0) as [E0|N0].
    - apply Z.shiftr_eq_0_iff in E0. lia.
    - pose proof (proj2 (Z.shiftr_nonneg m d)). lia. }
  split; [assumption|].
  rewrite (Zdigits2_log2 _ Hpos). lia.
Qed.

Lemma round_nearest_even_bounds (m : Z) (l : location) :
  m <= round_nearest_even m l <= m + 1.
Proof.
  destruct l as [|[| |]]; simpl; try lia.
  destruct (Z.even m); lia.
Qed.

(** Rounding a positive value above the smallest subnormal gives a positive
    double that is not smaller in magnitude. *)
Lemma binary_round_aux_at_least (z m e : Z) (l : location) :
  0 < m -> SpecFloat.emin prec emax < Zdigits2 m + e -> z <= Zdigits2 m + e ->
  at_least z (binary_round_aux prec emax false m e l).
Proof.
  intros Hm Hmag Hz. unfold binary_round_aux.
  destruct (shr_fexp_pos m e l Hm Hmag) as [Hm1 Hd1].
  destruct (shr_fexp prec emax m e l) as [mrs1 e1]. cbn [fst snd] in Hm1, Hd1.
  set (m2 := round_nearest_even (shr_m mrs1) (loc_of_shr_record mrs1)).
  pose proof (round_nearest_even_bounds (shr_m mrs1) (loc_of_shr_record mrs1))
    as Hr.
  fold m2 in Hr.
  assert (Hd2 : Zdigits2 (shr_m mrs1) <= Zdigits2 m2)
    by (apply Zdigits2_le; lia).
  destruct (shr_fexp_pos m2 e1 loc_Exact) as [Hm3 Hd3]; [lia | lia |].
  destruct (shr_fexp prec emax m2 e1 loc_Exact) as [mrs3 e3].
  cbn [fst snd] in Hm3, Hd3.
  destruct (shr_m mrs3) as [|p|p]; try lia.
  destruct (e3 <=? emax - prec); cbn [at_least]; [|exact I].
  cbn [Zdigits2] in Hd3. lia.
Qed.

(** Rounding a value that is not negative never gives a NaN or a negative
    double. *)
Lemma binary_round_aux_nonneg (m e : Z) (l : location) :
  0 <= m -> nonneg (binary_round_aux prec emax false m e l).
Proof.
  intros Hm. unfold binary_round_aux.
  destruct (shr_fexp_m m e l Hm) as [Em _].
  destruct (shr_fexp prec emax m e l) as [mrs1 e1]. cbn [fst snd] in Em.
  set (m2 := round_nearest_even (shr_m mrs1) (loc_of_shr_record mrs1)).
  pose proof (round_nearest_even_bounds (shr_m mrs1) (loc_of_shr_record mrs1))
    as Hr.
  fold m2 in Hr.
  assert (H1 : 0 <= shr_m mrs1)
    by (rewrite Em; apply Z.shiftr_nonneg; assumption).
  destruct (shr_fexp_m m2 e1 loc_Exact) as [Em3 _]; [lia|].
  destruct (shr_fexp prec emax m2 e1 loc_Exact) as [mrs3 e3].
  cbn [fst snd] in Em3.
  assert (H3 : 0 <= shr_m mrs3) by (rewrite Em3; apply Z.shiftr_nonneg; lia).
  destruct (shr_m mrs3) as [|p|p]; [exact I | | lia].
  destruct (e3 <=? emax - prec); exact I.
Qed.

(** Alignment to a smaller exponent scales the mantissa by a power of two. *)
Lemma iter_xO_digits (d m : positive) :
  digits2_pos (Pos.iter xO m d) = (digits2_pos m + d)%positive.
Proof.
  induction d using Pos.peano_ind.
  - simpl. lia.
  - rewrite Pos.iter_succ. simpl. rewrite IHd. lia.
Qed.

Lemma shl_align_magnitude (m : positive) (e e' : Z) :
  let r := shl_align m e e' in
  Zpos (digits2_pos (fst r)) + snd r = Zpos (digits2_pos m) + e.
Proof.
  unfold shl_align. destruct (e' - e) as [|d|d] eqn:E; cbn [fst snd];
    try reflexivity.
  rewrite iter_xO_digits. lia.
Qed.

Lemma shl_align_snd (m : positive) (e e' : Z) :
  e' <= e -> snd (shl_align m e e') = e'.
Proof.
  unfold shl_align. destruct (e' - e) as [|d|d] eqn:E; cbn [fst snd]; lia.
Qed.

Lemma binary_round_at_least (z : Z) (m : positive) (e : Z) :
  SpecFloat.emin prec emax < Zpos (digits2_pos m) + e ->
  z <= Zpos (digits2_pos m) + e ->
  at_least z (binary_round prec emax false m e).
Proof.
  intros Hmag Hz. unfold binary_round.
  pose proof (shl_align_magnitude m e
                (fexp prec emax (Zpos (digits2_pos m) + e))) as Hs.
  destruct (shl_align m e (fexp prec emax (Zpos (digits2_pos m) + e)))
    as [mz ez].
  cbn [fst snd] in Hs.
  apply binary_round_aux_at_least; cbn [Zdigits2]; lia.
Qed.

(** The sum of a double that is not negative and a double [>= 2^(z-1)] is
    [>= 2^(z-1)]. *)
Lemma add_at_least (z : Z) (a b : spec_float) :
  SpecFloat.emin prec emax < z ->
  nonneg a -> at_least z b -> at_least z (SF64add a b).
Proof.
  intros Hz Ha Hb. unfold SF64add, SFadd.
  destruct a as [sa|[|]| |[|] ma ea]; try contradiction;
    destruct b as [sb|[|]| |[|] mb eb]; try contradiction; try exact I;
    try exact Hb.
  cbv zeta. cbn [cond_Zopp].
  pose proof (shl_align_magnitude mb eb (Z.min ea eb)) as Hs.
  pose proof (shl_align_snd mb eb (Z.min ea eb) (Z.le_min_r _ _)) as Hs2.
  destruct (shl_align mb eb (Z.min ea eb)) as [mb' eb'].
  destruct (shl_align ma ea (Z.min ea eb)) as [ma' ea'].
  cbn [fst snd at_least] in *. subst eb'.
  change (Z.pos ma' + Z.pos mb') with (Z.pos (ma' + mb')).
  cbn [binary_normalize].
  assert (Zpos (digits2_pos mb') <= Zpos (digits2_pos (ma' + mb')))
    by (apply (Zdigits2_le (Zpos mb') (Zpos (ma' + mb'))); lia).
  apply binary_round_at_least; lia.
Qed.

(** The quotient of a positive double by a positive finite one is not
    negative. *)
Lemma div_nonneg (a b : spec_float) :
  strictly_pos a ->
  match b with S754_finite false _ _ => True | _ => False end ->
  nonneg (SF64div a b).
Proof.
  intros Ha Hb. unfold SF64div, SFdiv.
  destruct a as [sa|[|]| |[|] ma ea]; try contradiction;
    destruct b as [sb|[|]| |[|] mb eb]; try contradiction; try exact I.
  unfold SFdiv_core_binary.
  set (m' := match _ with Z0 => _ | Zpos _ => _ | Zneg _ => _ end).
  assert (Hm' : 0 <= m').
  { subst m'. destruct (_ - _ - _) as [|s|s]; try lia.
    apply Z.shiftl_nonneg. lia. }
  pose proof (Z.div_pos m' (Zpos mb) Hm' (Pos2Z.is_pos mb)) as Hq.
  unfold Z.div in Hq.
  destruct (Z.div_eucl m' (Zpos mb)) as [q r]. cbn [fst] in Hq.
  apply binary_round_aux_nonneg; assumption.
Qed.

End SF.

(** ** Comparisons and signs of primitive floats *)

Lemma Prim2SF_zero : Prim2SF 0 = S754_zero false.
Proof. reflexivity. Qed.

Lemma Prim2SF_two : Prim2SF 2 = S754_finite false 4503599627370496 (-51).
Proof. reflexivity. Qed.

Lemma ltb_leb_false (a b : float) : (a <? b) = true -> (b <=? a) = false.
Proof.
  rewrite ltb_spec, leb_spec. unfold SFltb, SFleb.
  rewrite (SF.compare_antisym (Prim2SF a) (Prim2SF b)).
  destruct (SFcompare (Prim2SF a) (Prim2SF b)) as [[| |]|]; simpl;
    congruence.
Qed.

Lemma leb_ltb_false (a b : float) : (a <=? b) = true -> (b <? a) = false.
Proof.
  rewrite ltb_spec, leb_spec. unfold SFltb, SFleb.
  rewrite (SF.compare_antisym (Prim2SF a) (Prim2SF b)).
  destruct (SFcompare (Prim2SF a) (Prim2SF b)) as [[| |]|]; simpl;
    congruence.
Qed.

Lemma ltb_0_strictly_pos (x : float) :
  (0 <? x) = true <-> strictly_pos (Prim2SF x).
Proof.
  rewrite ltb_spec, Prim2SF_zero. unfold SFltb.
  destruct (Prim2SF x) as [s|[|]| |[|] m e]; simpl; intuition congruence.
Qed.

Lemma strictly_pos_nonzero (x : float) :
  strictly_pos (Prim2SF x) -> (x =? 0) = false.
Proof.
  rewrite eqb_spec, Prim2SF_zero. unfold SFeqb.
  destruct (Prim2SF x) as [s|[|]| |[|] m e]; simpl; intuition congruence.
Qed.

Lemma at_least_strictly_pos (z : Z) (f : spec_float) :
  at_least z f -> strictly_pos f.
Proof. destruct f as [s|[|]| |[|] m e]; simpl; trivial. Qed.

(** Division by the literal [2.0] never raises. *)
Lemma truediv_2 (a : float) : PyFloat.truediv a 2 = Value (a / 2).
Proof. reflexivity. Qed.

(** Half of a positive double is not negative (it is zero for 5e-324). *)
Lemma half_nonneg (df : float) :
  (0 <? df) = true -> nonneg (Prim2SF (df / 2)).
Proof.
  intros H. apply ltb_0_strictly_pos in H.
  rewrite div_spec, Prim2SF_two. apply SF.div_nonneg; [assumption | exact I].
Qed.

(** The loop counter, as a double, is at least 1. *)
Lemma of_int_at_least_1 (i : Z) :
  (1 <= i < 2000)%Z -> at_least 1 (Prim2SF (PyFloat.of_int i)).
Proof.
  intros Hi. unfold PyFloat.of_int.
  rewrite of_uint63_spec, Uint63.of_Z_spec.
  rewrite Z.mod_small by (change wB with 9223372036854775808%Z; lia).
  destruct i as [|p|p]; try lia. cbn [binary_normalize].
  pose proof (Pos2Z.is_pos (digits2_pos p)).
  apply SF.binary_round_at_least; unfold SpecFloat.emin, prec, emax; lia.
Qed.

(** A divisor [k + n] of the loop is strictly positive when [k] is not
    negative. *)
Lemma divisor_pos (k : float) (i : Z) :
  nonneg (Prim2SF k) -> (1 <= i < 2000)%Z ->
  strictly_pos (Prim2SF (k + PyFloat.of_int i)).
Proof.
  intros Hk Hi. rewrite add_spec.
  apply (at_least_strictly_pos 1), SF.add_at_least;
    [unfold SpecFloat.emin, prec, emax; lia | assumption |].
  apply of_int_at_least_1; assumption.
Qed.

(** Dividing by a strictly positive double does not raise. *)
Lemma truediv_strictly_pos (a b : float) :
  strictly_pos (Prim2SF b) -> PyFloat.truediv a b = Value (a / b).
Proof.
  intros H. unfold PyFloat.truediv.
  rewrite (strictly_pos_nonzero b H). reflexivity.
Qed.

(** Whatever [e] is, [1 - e * inf] is an infinity or a NaN, never a
    probability. *)
Lemma one_minus_times_inf (e : float) :
  in_unit_interval (1 - e * infinity) = false.
Proof.
  unfold in_unit_interval. rewrite !leb_spec, sub_spec, mul_spec.
  change (Prim2SF 1) with (S754_finite false 4503599627370496 (-52)).
  change (Prim2SF infinity) with (S754_infinity false).
  rewrite Prim2SF_zero.
  destruct (Prim2SF e) as [s|[|]| |[|] m x]; reflexivity.
Qed.

(** * The loop *)

Lemma while_unfold (fuel : nat) (t k : float) (st : loop_state) :
  while fuel t k st =
  if loop_cond st then
    match fuel with
    | O => OutOfFuel
    | S fuel' => st' <- loop_body t k st ;; while fuel' t k st'
    end
  else Ok st.
Proof. destruct fuel; reflexivity. Qed.

(** The body adds one to [n], whatever else it does. *)
Lemma loop_body_n (t k : float) (st st' : loop_state) :
  loop_body t k st = Ok st' -> n st' = (n st + 1)%Z.
Proof.
  unfold loop_body.
  destruct (PyFloat.truediv t (k + PyFloat.of_int (n st))) as [r|e];
    cbn [bind of_result]; intros H; inversion H; reflexivity.
Qed.

(** The body gives a state or raises. *)
Lemma loop_body_fuel (t k : float) (st : loop_state) :
  loop_body t k st <> OutOfFuel.
Proof.
  unfold loop_body.
  destruct (PyFloat.truediv t (k + PyFloat.of_int (n st))) as [r|e];
    cbn [bind of_result]; discriminate.
Qed.

(** The cap [n < 2000] bounds the loop: with enough fuel the outcome does not
    depend on the fuel, and it is not [OutOfFuel]. *)
Lemma while_enough_fuel (t k : float) (fuel : nat) :
  forall st fuel',
    (budget_left st <= fuel)%nat -> (budget_left st <= fuel')%nat ->
    while fuel t k st = while fuel' t k st /\ while fuel t k st <> OutOfFuel.
Proof.
  induction fuel as [|f IH]; intros st fuel' H1 H2;
    rewrite (while_unfold _ t k st), (while_unfold fuel' t k st);
    unfold budget_left in *;
    destruct (loop_cond st) eqn:Hc; try (split; [reflexivity|discriminate]);
    unfold loop_cond in Hc; apply andb_true_iff in Hc; destruct Hc as [_ Hn];
    apply Z.ltb_lt in Hn; try lia.
  destruct fuel' as [|f']; [lia|].
  destruct (loop_body t k st) as [st'|e|] eqn:Hb; cbn [bind];
    try (split; [reflexivity|discriminate]).
  - pose proof (loop_body_n t k st st' Hb) as Hn'.
    apply IH; unfold budget_left; lia.
  - exfalso. exact (loop_body_fuel t k st Hb).
Qed.

(** The function past its guard. *)
Lemma chi2_positive_branch (math : MathModule) (fuel : nat) (x df : float) :
  (x <=? 0) = false ->
  chi2_cdf_upper_tail math fuel x df =
  (l <- math_log math (x / 2) ;;
   g <- math_lgamma math (df / 2 + 1) ;;
   st <- while fuel (x / 2) (df / 2) loop_init ;;
   e <- math_exp math (df / 2 * l - x / 2 - g) ;;
   Ok (1 - e * sum_val st)).
Proof.
  intros H. unfold chi2_cdf_upper_tail. rewrite !truediv_2.
  cbn [bind of_result]. rewrite H. reflexivity.
Qed.

Lemma chi2_guard (math : MathModule) (fuel : nat) (x df : float) :
  (x <=? 0) = true -> chi2_cdf_upper_tail math fuel x df = Ok 1.
Proof.
  intros H. unfold chi2_cdf_upper_tail. rewrite !truediv_2.
  cbn [bind of_result]. rewrite H. reflexivity.
Qed.

Lemma chi2_enough_fuel (math : MathModule) (fuel fuel' : nat) (x df : float) :
  (1999 <= fuel)%nat -> (1999 <= fuel')%nat ->
  chi2_cdf_upper_tail math fuel x df = chi2_cdf_upper_tail math fuel' x df /\
  chi2_cdf_upper_tail math fuel x df <> OutOfFuel.
Proof.
  intros H1 H2.
  destruct (x <=? 0) eqn:Hx.
  - rewrite !chi2_guard by assumption. split; [reflexivity|discriminate].
  - rewrite !chi2_positive_branch by assumption.
    destruct (while_enough_fuel (x / 2) (df / 2) fuel loop_init fuel')
      as [E NE]; [exact H1 | exact H2 |].
    rewrite <- E. split; [reflexivity|].
    destruct (math_log math (x / 2)) as [l|e]; cbn [bind of_result];
      [|discriminate].
    destruct (math_lgamma math (df / 2 + 1)) as [g|e]; cbn [bind of_result];
      [|discriminate].
    destruct (while fuel (x / 2) (df / 2) loop_init) as [st|e|];
      cbn [bind]; [|discriminate|congruence].
    destruct (math_exp math (df / 2 * l - x / 2 - g)) as [v|e];
      cbn [bind of_result]; discriminate.
Qed.

(** ** The loop and the series *)

Section Series.

Variables t k : float.

(** No divisor of the loop is zero. *)
Hypothesis divisors :
  forall i : Z, (1 <= i < 2000)%Z ->
    strictly_pos (Prim2SF (k + PyFloat.of_int i)).

Lemma loop_cond_state_at (i : nat) :
  loop_cond (Spec.state_at t k i) = Spec.continues t k i.
Proof. reflexivity. Qed.

Lemma loop_body_state_at (i : nat) :
  (Z.of_nat i + 1 < 2000)%Z ->
  loop_body t k (Spec.state_at t k i) = Ok (Spec.state_at t k (S i)).
Proof.
  intros Hi. unfold loop_body, Spec.state_at.
  cbn [n term sum_val].
  replace (Z.of_nat i + 1)%Z with (Z.of_nat (S i)) by lia.
  rewrite truediv_strictly_pos by (apply divisors; lia).
  cbn [bind of_result Spec.series_sum Spec.series_term]. reflexivity.
Qed.

Lemma first_stop_ge (budget : nat) : forall i,
  (i <= Spec.first_stop t k budget i <= i + budget)%nat.
Proof.
  induction budget as [|b IH]; intros i; cbn [Spec.first_stop]; [lia|].
  destruct (Spec.continues t k i); [|lia].
  specialize (IH (S i)). lia.
Qed.

Lemma first_stop_before (budget : nat) : forall i j,
  (i <= j < Spec.first_stop t k budget i)%nat -> Spec.continues t k j = true.
Proof.
  induction budget as [|b IH]; intros i j Hj; cbn [Spec.first_stop] in Hj;
    [lia|].
  destruct (Spec.continues t k i) eqn:Hc; [|lia].
  destruct (Nat.eq_dec j i) as [->|Hne]; [assumption|].
  apply (IH (S i)). lia.
Qed.

Lemma continues_cap (i : nat) :
  (1999 <= i)%nat -> Spec.continues t k i = false.
Proof.
  intros Hi. unfold Spec.continues.
  replace (Z.of_nat i + 1 <? 2000)%Z with false
    by (symmetry; apply Z.ltb_ge; lia).
  apply andb_false_r.
Qed.

Lemma first_stop_stops (budget : nat) : forall i,
  (1999 <= i + budget)%nat ->
  Spec.continues t k (Spec.first_stop t k budget i) = false.
Proof.
  induction budget as [|b IH]; intros i Hi; cbn [Spec.first_stop].
  - apply continues_cap. lia.
  - destruct (Spec.continues t k i) eqn:Hc; [|assumption].
    apply IH. lia.
Qed.

(** The loop, started after [i] updates, stops after
    [first_stop budget i] updates. *)
Lemma while_first_stop (budget : nat) : forall i fuel,
  (1999 <= i + budget)%nat ->
  (Spec.first_stop t k budget i <= i + fuel)%nat ->
  while fuel t k (Spec.state_at t k i) =
  Ok (Spec.state_at t k (Spec.first_stop t k budget i)).
Proof.
  induction budget as [|b IH]; intros i fuel Hi Hf;
    rewrite while_unfold, loop_cond_state_at; cbn [Spec.first_stop] in *.
  - rewrite continues_cap by lia. reflexivity.
  - destruct (Spec.continues t k i) eqn:Hc; [|reflexivity].
    pose proof (first_stop_ge b (S i)) as Hge.
    destruct fuel as [|f]; [lia|].
    rewrite loop_body_state_at.
    + cbn [bind]. apply IH; lia.
    + unfold Spec.continues in Hc. apply andb_true_iff in Hc.
      destruct Hc as [_ Hc]. apply Z.ltb_lt in Hc. exact Hc.
Qed.

Lemma stop_index_le : (Spec.stop_index t k <= 1999)%nat.
Proof.
  unfold Spec.stop_index. pose proof (first_stop_ge 1999 0). lia.
Qed.

Lemma while_stop_index (fuel : nat) :
  (Spec.stop_index t k <= fuel)%nat ->
  while fuel t k loop_init =
  Ok (Spec.state_at t k (Spec.stop_index t k)).
Proof.
  intros Hf. change loop_init with (Spec.state_at t k 0).
  apply while_first_stop; [lia | exact Hf].
Qed.

End Series.

(** The divisors of the loop for a positive [df]. *)
Lemma divisors_of_positive_df (df : float) :
  (0 <? df) = true ->
  forall i : Z, (1 <= i < 2000)%Z ->
    strictly_pos (Prim2SF (df / 2 + PyFloat.of_int i)).
Proof.
  intros Hdf i Hi. apply divisor_pos; [apply half_nonneg|]; assumption.
Qed.

Lemma nonneg_leb (x : float) : nonneg (Prim2SF x) -> (0 <=? x) = true.
Proof.
  rewrite leb_spec, Prim2SF_zero. unfold SFleb.
  destruct (Prim2SF x) as [s|[|]| |[|] m e]; simpl; intuition congruence.
Qed.

(** The counter starts at 1 and only goes up. *)
Lemma reached_n (t k : float) (st : loop_state) :
  reached t k st -> (1 <= n st)%Z.
Proof.
  intros Hr. induction Hr as [|st st' _ IH Hs].
  - change (n loop_init) with 1%Z. lia.
  - destruct Hs as [st st' _ Hb].
    rewrite (loop_body_n _ _ _ _ Hb). lia.
Qed.

(** ** Calls of CPython's [math] that return *)

Lemma log_value (M : Libm) (x : float) :
  is_nan x = false -> (x <=? 0) = false -> is_infinity x = false ->
  is_finite (libm_log M x) = true ->
  PyMath.log M x = Value (libm_log M x).
Proof.
  intros H1 H2 H3 H4. unfold PyMath.log. rewrite H1, H2, H3.
  unfold is_finite in H4. apply negb_true_iff in H4. cbv zeta.
  rewrite H4. reflexivity.
Qed.

Lemma lgamma_value (M : Libm) (x : float) :
  is_nan x = false -> is_infinity x = false ->
  PyFloat.is_integral x && (x <=? 0) = false ->
  is_finite (libm_lgamma M x) = true ->
  PyMath.lgamma M x = Value (libm_lgamma M x).
Proof.
  intros H1 H2 H3 H4. unfold PyMath.lgamma. rewrite H1, H2, H3.
  unfold is_finite in H4. apply negb_true_iff, orb_false_iff in H4.
  cbv zeta. rewrite (proj2 H4). reflexivity.
Qed.

Lemma exp_value (M : Libm) (y : float) :
  is_finite (libm_exp M y) = true ->
  PyMath.exp M y = Value (libm_exp M y).
Proof.
  intros H. unfold PyMath.exp. cbv zeta.
  unfold is_finite in H. apply negb_true_iff, orb_false_iff in H.
  rewrite (proj1 H), (proj2 H). reflexivity.
Qed.

(** ** Enumerations *)

Lemma near_In (r : nat) (c v : float) :
  near r c v = true -> In v (ulp_ball c r).
Proof.
  unfold near. intros H. apply existsb_exists in H.
  destruct H as [w [Hin Heq]]. apply Leibniz.eqb_spec in Heq.
  subst w. exact Hin.
Qed.

Lemma In_log_terms (k t l g : float) (ls gs : list float) :
  In l ls -> In g gs -> In (k * l - t - g) (log_terms k t ls gs).
Proof.
  intros Hl Hg. unfold log_terms. apply in_flat_map.
  exists l. split; [exact Hl|].
  apply (in_map (fun g0 => k * l - t - g0)). exact Hg.
Qed.

Lemma forallb_In {A : Type} (P : A -> bool) (l : list A) (a : A) :
  forallb P l = true -> In a l -> P a = true.
Proof. intros H. exact (proj1 (forallb_forall P l) H a). Qed.

(** ** More fuel changes no result *)

Lemma while_mono (t k : float) (fuel : nat) : forall st st' fuel',
  while fuel t k st = Ok st' -> (fuel <= fuel')%nat ->
  while fuel' t k st = Ok st'.
Proof.
  induction fuel as [|f IH]; intros st st' fuel' H Hle;
    rewrite while_unfold in H; rewrite while_unfold;
    destruct (loop_cond st); try exact H; try discriminate.
  destruct fuel' as [|f']; [lia|].
  destruct (loop_body t k st) as [st1|e|]; cbn [bind] in *;
    try discriminate.
  apply IH; [exact H | lia].
Qed.

(** ** The two runs of the loop the examples need *)

Lemma series_at_5000_1 :
  while 1999 2500 0.5 loop_init =
  Ok {| sum_val := infinity; term := infinity; n := 2000 |}.
Proof. vm_compute. reflexivity. Qed.

Lemma series_at_50_15 :
  exists st, while 1999 25 7.5 loop_init = Ok st /\ sum_val st = sum_50_15.
Proof. eexists. split; [vm_compute; reflexivity | reflexivity]. Qed.

(** The run at [x = 5000.0], [df = 1.0] under an accurate libm: the series
    sum is infinite, exp underflows to zero, and [0.0 * inf] is a NaN. *)
Lemma chi2_5000_1_nan (M : Libm) (fuel : nat) :
  accurate_at_5000_1 M = true -> (1999 <= fuel)%nat ->
  chi2_cdf_upper_tail (PyMath.cpython M) fuel 5000 1 = Ok nan.
Proof.
  unfold accurate_at_5000_1. intros Hacc Hfuel.
  apply andb_true_iff in Hacc. destruct Hacc as [Hacc Hexp].
  apply andb_true_iff in Hacc. destruct Hacc as [Hlog Hlgamma].
  apply near_In in Hlog. apply near_In in Hlgamma.
  set (l := libm_log M 2500) in *. set (g := libm_lgamma M 1.5) in *.
  assert (Hl : is_finite l = true).
  { apply (forallb_In is_finite (ulp_ball Ref.ln_2500 2)); [|exact Hlog].
    vm_compute. reflexivity. }
  assert (Hg : is_finite g = true).
  { apply (forallb_In is_finite (ulp_ball Ref.lgamma_1_5 64));
      [|exact Hlgamma].
    vm_compute. reflexivity. }
  pose proof (forallb_In _ _ _ Hexp
                (In_log_terms 0.5 2500 l g _ _ Hlog Hlgamma)) as Hy.
  cbv beta in Hy. apply andb_true_iff in Hy. destruct Hy as [_ Hy].
  apply Leibniz.eqb_spec in Hy.
  rewrite chi2_positive_branch by reflexivity.
  change (5000 / 2) with 2500. change (1 / 2) with 0.5.
  change (0.5 + 1) with 1.5.
  cbn [math_log math_lgamma math_exp PyMath.cpython].
  rewrite log_value by (try reflexivity; exact Hl).
  rewrite lgamma_value by (try reflexivity; exact Hg).
  cbn [bind of_result]. fold l g.
  destruct (while_enough_fuel 2500 0.5 fuel loop_init 1999) as [E _];
    [exact Hfuel | apply le_n |].
  rewrite E, series_at_5000_1. cbn [bind sum_val].
  rewrite exp_value by (rewrite Hy; reflexivity).
  rewrite Hy. reflexivity.
Qed.

(** The run at [x = 50.0], [df = 15] under an accurate libm. *)
Lemma chi2_50_15_run (M : Libm) (fuel : nat) :
  accurate_at_50_15 M = true -> (1999 <= fuel)%nat ->
  exists v,
    chi2_cdf_upper_tail (PyMath.cpython M) fuel 50 15 = Ok v /\
    between_120_and_121e_7 v = true /\
    within_1pct_of_1e_5 v = false.
Proof.
  unfold accurate_at_50_15. intros Hacc Hfuel.
  apply andb_true_iff in Hacc. destruct Hacc as [Hacc Hexp].
  apply andb_true_iff in Hacc. destruct Hacc as [Hlog Hlgamma].
  apply near_In in Hlog. apply near_In in Hlgamma.
  set (l := libm_log M 25) in *. set (g := libm_lgamma M 8.5) in *.
  assert (Hl : is_finite l = true).
  { apply (forallb_In is_finite (ulp_ball Ref.ln_25 2)); [|exact Hlog].
    vm_compute. reflexivity. }
  assert (Hg : is_finite g = true).
  { apply (forallb_In is_finite (ulp_ball Ref.lgamma_8_5 16));
      [|exact Hlgamma].
    vm_compute. reflexivity. }
  pose proof (forallb_In _ _ _ Hexp
                (In_log_terms 7.5 25 l g _ _ Hlog Hlgamma)) as Hy.
  cbv beta in Hy. apply near_In in Hy.
  set (e := libm_exp M (7.5 * l - 25 - g)) in *.
  assert (He : value_50_15_ok e = true).
  { apply (forallb_In value_50_15_ok (ulp_ball Ref.exp_50_15 512));
      [|exact Hy].
    vm_compute. reflexivity. }
  unfold value_50_15_ok in He.
  apply andb_true_iff in He. destruct He as [He Hout].
  apply andb_true_iff in He. destruct He as [Hfin Hin].
  apply negb_true_iff in Hout.
  rewrite chi2_positive_branch by reflexivity.
  change (50 / 2) with 25. change (15 / 2) with 7.5.
  change (7.5 + 1) with 8.5.
  cbn [math_log math_lgamma math_exp PyMath.cpython].
  rewrite log_value by (try reflexivity; exact Hl).
  rewrite lgamma_value by (try reflexivity; exact Hg).
  cbn [bind of_result]. fold l g.
  destruct (while_enough_fuel 25 7.5 fuel loop_init 1999) as [E _];
    [exact Hfuel | apply le_n |].
  destruct series_at_50_15 as [st [Hst Hsum]].
  rewrite E, Hst. cbn [bind].
  rewrite exp_value by exact Hfin.
  cbn [bind of_result]. fold e. rewrite Hsum.
  eexists. split; [reflexivity|]. split; assumption.
Qed.

(** ** When the call returns *)

Lemma strictly_pos_not_nan (x : float) :
  strictly_pos (Prim2SF x) -> is_nan x = false.
Proof.
  unfold is_nan. rewrite eqb_spec. unfold SFeqb.
  destruct (Prim2SF x) as [s|[|]| |[|] m e]; simpl; try contradiction;
    try reflexivity.
  intros _. rewrite Z.compare_refl.
  change (Pos.compare_cont Eq m m) with (Pos.compare m m).
  rewrite Pos.compare_refl. reflexivity.
Qed.

(** For [df > 0] the argument [k + 1] of lgamma is at least 1, so it is no
    pole. *)
Lemma lgamma_argument_pos (df : float) :
  (0 <? df) = true -> strictly_pos (Prim2SF (df / 2 + 1)).
Proof.
  intros Hdf. rewrite add_spec.
  apply (at_least_strictly_pos 1), SF.add_at_least;
    [unfold SpecFloat.emin, prec, emax; lia | apply half_nonneg; exact Hdf |].
  change (Prim2SF 1) with (S754_finite false 4503599627370496 (-52)).
  cbn. lia.
Qed.

(** X4.  With [df > 0] and [t = x/2 > 0], both finite, the call returns as
    soon as the platform's log, lgamma and exp return finite values: nothing
    else can raise, and the value is [1.0 - e * S] with the sum [S] of the
    series as the specification words it. *)
Lemma chi2_returns (M : Libm) (fuel : nat) (x df : float) :
  let t := x / 2 in
  let k := df / 2 in
  let l := libm_log M t in
  let g := libm_lgamma M (k + 1) in
  let e := libm_exp M (k * l - t - g) in
  (0 <? x) = true -> (0 <? df) = true -> (0 <? t) = true ->
  is_infinity t = false -> is_infinity (k + 1) = false ->
  is_finite l = true -> is_finite g = true -> is_finite e = true ->
  (1999 <= fuel)%nat ->
  chi2_cdf_upper_tail (PyMath.cpython M) fuel x df =
  Ok (1 - e * Spec.partial_sum t k).
Proof.
  intros t k l g e Hx Hdf Ht Htinf Hkinf Hl Hg He Hfuel.
  rewrite chi2_positive_branch by (apply ltb_leb_false; exact Hx).
  fold t k. cbn [math_log math_lgamma math_exp PyMath.cpython].
  pose proof (lgamma_argument_pos df Hdf) as Hk1. fold k in Hk1.
  rewrite log_value;
    [| apply strictly_pos_not_nan, ltb_0_strictly_pos; exact Ht
     | apply ltb_leb_false; exact Ht | exact Htinf | exact Hl].
  rewrite lgamma_value;
    [| apply strictly_pos_not_nan; exact Hk1 | exact Hkinf
     | rewrite (ltb_leb_false 0 (k + 1))
         by (apply ltb_0_strictly_pos; exact Hk1);
       apply andb_false_r
     | exact Hg].
  cbn [bind of_result]. fold l g.
  rewrite (while_stop_index t k (divisors_of_positive_df df Hdf))
    by (pose proof (stop_index_le t k); lia).
  cbn [bind]. rewrite exp_value by exact He. reflexivity.
Qed.

(** ** Arguments that compare equal *)

(** Doubles that compare equal ([==]) are bit-identical, or both zero. *)
Lemma eqb_cases (a b : float) :
  (a =? b) = true ->
  a = b \/ exists sa sb, Prim2SF a = S754_zero sa /\ Prim2SF b = S754_zero sb.
Proof.
  rewrite eqb_spec. unfold SFeqb. intros H.
  destruct (Prim2SF a) as [sa|sa| |sa ma ea] eqn:Ea;
    destruct (Prim2SF b) as [sb|sb| |sb mb eb] eqn:Eb;
    try (right; exists sa, sb; split; reflexivity);
    left; apply Prim2SF_inj; rewrite Ea, Eb; simpl in H;
    try discriminate;
    try (destruct sa, sb; discriminate);
    try (destruct sa; discriminate); try (destruct sb; discriminate).
  - destruct sa, sb; try discriminate; reflexivity.
  - change (Pos.compare_cont Eq ma mb) with (Pos.compare ma mb) in H.
    destruct sa, sb; try discriminate;
      destruct (Z.compare ea eb) eqn:Ee; try discriminate;
      destruct (Pos.compare ma mb) eqn:Em; try discriminate;
      apply Z.compare_eq in Ee; apply Pos.compare_eq in Em; subst;
      reflexivity.
Qed.

Lemma zero_leb (x : float) (s : bool) :
  Prim2SF x = S754_zero s -> (x <=? 0) = true.
Proof. intros H. rewrite leb_spec, H. reflexivity. Qed.

Lemma zero_cases (x : float) (s : bool) :
  Prim2SF x = S754_zero s -> x = 0 \/ x = -0.
Proof.
  intros H. rewrite <- (SF2Prim_Prim2SF x), H.
  destruct s; [right | left]; reflexivity.
Qed.

(** [math.log] returns at no zero. *)
Lemma log_value_nonzero (M : Libm) (t l : float) (s : bool) :
  PyMath.log M t = Value l -> Prim2SF t <> S754_zero s.
Proof.
  intros H Hz. unfold PyMath.log in H.
  replace (is_nan t) with false in H
    by (unfold is_nan; rewrite eqb_spec, Hz; reflexivity).
  rewrite (zero_leb t s Hz) in H. discriminate.
Qed.

(** The sign of a zero [k] does not show in [k * l - t] for [t <> 0]. *)
Lemma zero_sign_log_term (l t : float) :
  (forall s, Prim2SF t <> S754_zero s) -> 0 * l - t = -0 * l - t.
Proof.
  intros Ht. apply Prim2SF_inj. rewrite !sub_spec, !mul_spec.
  change (Prim2SF 0) with (S754_zero false).
  change (Prim2SF (-0)) with (S754_zero true).
  destruct (Prim2SF t) as [st|st| |st mt et];
    [exfalso; exact (Ht st eq_refl) | | |];
    destruct (Prim2SF l) as [sl|sl| |sl ml el]; reflexivity.
Qed.

(** Nor in a divisor [k + n] of the loop. *)
Lemma zero_sign_divisor (i : Z) :
  (1 <= i < 2000)%Z -> 0 + PyFloat.of_int i = -0 + PyFloat.of_int i.
Proof.
  intros Hi. apply Prim2SF_inj. rewrite !add_spec.
  change (Prim2SF 0) with (S754_zero false).
  change (Prim2SF (-0)) with (S754_zero true).
  pose proof (of_int_at_least_1 i Hi) as H.
  destruct (Prim2SF (PyFloat.of_int i)) as [s|[|]| |[|] m e];
    try contradiction; reflexivity.
Qed.

Lemma zero_sign_while (t : float) (fuel : nat) : forall st,
  (1 <= n st)%Z -> while fuel t 0 st = while fuel t (-0) st.
Proof.
  induction fuel as [|f IH]; intros st Hn; rewrite !while_unfold;
    destruct (loop_cond st) eqn:Hc; try reflexivity.
  unfold loop_cond in Hc. apply andb_true_iff in Hc.
  destruct Hc as [_ Hc]. apply Z.ltb_lt in Hc.
  unfold loop_body. rewrite <- (zero_sign_divisor (n st)) by lia.
  destruct (PyFloat.truediv t (0 + PyFloat.of_int (n st))) as [r|e];
    cbn [bind of_result]; [|reflexivity].
  apply IH. cbn [n]. lia.
Qed.

Lemma chi2_zero_df (M : Libm) (fuel : nat) (x : float) :
  chi2_cdf_upper_tail (PyMath.cpython M) fuel x 0 =
  chi2_cdf_upper_tail (PyMath.cpython M) fuel x (-0).
Proof.
  destruct (x <=? 0) eqn:Hx.
  - rewrite !chi2_guard by exact Hx. reflexivity.
  - rewrite !chi2_positive_branch by exact Hx.
    change (0 / 2) with 0. change (-0 / 2) with (-0).
    change (-0 + 1) with (0 + 1).
    cbn [math_log math_lgamma math_exp PyMath.cpython].
    destruct (PyMath.log M (x / 2)) as [l|e] eqn:Hl; cbn [bind of_result];
      [|reflexivity].
    rewrite (zero_sign_log_term l (x / 2))
      by (intros s; exact (log_value_nonzero M _ l s Hl)).
    rewrite (zero_sign_while (x / 2) fuel loop_init)
      by (change (n loop_init) with 1%Z; lia).
    reflexivity.
Qed.

Lemma same_argument_cases (a b : float) :
  same_argument a b ->
  a = b \/ exists sa sb, Prim2SF a = S754_zero sa /\ Prim2SF b = S754_zero sb.
Proof.
  intros [H|H]; [left; apply Leibniz.eqb_spec; exact H|].
  apply eqb_cases. exact H.
Qed.

(** The same arguments give the same outcome under CPython's [math]. *)
Lemma chi2_same_arguments (M : Libm) (fuel : nat) (x1 df1 x2 df2 : float) :
  same_argument x1 x2 -> same_argument df1 df2 ->
  chi2_cdf_upper_tail (PyMath.cpython M) fuel x1 df1 =
  chi2_cdf_upper_tail (PyMath.cpython M) fuel x2 df2.
Proof.
  intros Hx Hdf.
  destruct (same_argument_cases x1 x2 Hx) as [->|[s1 [s2 [Z1 Z2]]]].
  - destruct (same_argument_cases df1 df2 Hdf) as [->|[d1 [d2 [D1 D2]]]];
      [reflexivity|].
    destruct (zero_cases df1 d1 D1) as [->| ->];
      destruct (zero_cases df2 d2 D2) as [->| ->];
      try reflexivity; [|symmetry]; apply chi2_zero_df.
  - rewrite !chi2_guard by (eapply zero_leb; eassumption). reflexivity.
Qed.

(** * The function in a namespace *)

Lemma call_math_module (m : MathModule) (ns : Namespace) (arg : float) :
  resolve "math" ns = Some (ModuleObj m) ->
  call_math "log" arg ns = (ns, Completed (math_log m arg)) /\
  call_math "lgamma" arg ns = (ns, Completed (math_lgamma m arg)) /\
  call_math "exp" arg ns = (ns, Completed (math_exp m arg)).
Proof.
  intros H. unfold call_math, bind_in, load_name. rewrite H.
  repeat split.
Qed.

Lemma loop_cond_in_builtin_abs (ns : Namespace) (st : loop_state) :
  resolve "abs" ns = Some builtin_abs ->
  loop_cond_in st ns = (ns, Completed (Ok (loop_cond st))).
Proof.
  intros H. unfold loop_cond_in, call_abs, bind_in, load_name. rewrite H.
  reflexivity.
Qed.

Lemma while_in_builtin_abs (ns : Namespace) (t k : float) (fuel : nat) :
  resolve "abs" ns = Some builtin_abs ->
  forall st, while_in fuel t k st ns = (ns, Completed (while fuel t k st)).
Proof.
  intros H. induction fuel as [|f IH]; intros st;
    cbn [while_in while]; unfold bind_in at 1;
    rewrite (loop_cond_in_builtin_abs ns st H);
    destruct (loop_cond st); try reflexivity.
  unfold bind_in, lift_in.
  destruct (loop_body t k st) as [st'|e|]; cbn [bind]; try reflexivity.
  apply IH.
Qed.

(** In a namespace where [math] is the module [m] and [abs] the builtin,
    the call leaves the namespace as it was and ends as the function of
    [m], [x] and [df] does. *)
Lemma chi2_in_namespace (m : MathModule) (ns : Namespace) (fuel : nat)
  (x df : float) :
  resolve "math" ns = Some (ModuleObj m) ->
  resolve "abs" ns = Some builtin_abs ->
  chi2_cdf_upper_tail_in fuel x df ns =
  (ns, Completed (chi2_cdf_upper_tail m fuel x df)).
Proof.
  intros Hm Ha. unfold chi2_cdf_upper_tail_in, chi2_cdf_upper_tail.
  rewrite !truediv_2. unfold bind_in at 1 2. cbn [lift_in of_result bind].
  destruct (x <=? 0); [reflexivity|].
  destruct (call_math_module m ns (x / 2) Hm) as [El _].
  destruct (call_math_module m ns (df / 2 + 1) Hm) as [_ [Eg _]].
  unfold bind_in at 1. rewrite El.
  destruct (math_log m (x / 2)) as [l|e]; cbn [of_result bind];
    [|reflexivity].
  unfold bind_in at 1. rewrite Eg.
  destruct (math_lgamma m (df / 2 + 1)) as [g|e]; cbn [of_result bind];
    [|reflexivity].
  unfold bind_in at 1. rewrite (while_in_builtin_abs ns _ _ _ Ha).
  destruct (while fuel (x / 2) (df / 2) loop_init) as [st|e|]; cbn [bind];
    try reflexivity.
  destruct (call_math_module m ns (df / 2 * l - x / 2 - g) Hm)
    as [_ [_ Ee]].
  unfold bind_in. rewrite Ee.
  destruct (math_exp m (df / 2 * l - x / 2 - g)) as [v|e];
    cbn [of_result bind]; reflexivity.
Qed.

Lemma reads_unit {A : Type} (a : A) : reads_only_math_and_abs (unit_in a).
Proof. split; reflexivity. Qed.

Lemma reads_lift {A : Type} (o : outcome A) :
  reads_only_math_and_abs (lift_in o).
Proof. split; reflexivity. Qed.

Lemma reads_fail {A : Type} (e : NameExc) :
  reads_only_math_and_abs (@fail_in A e).
Proof. split; reflexivity. Qed.

Lemma reads_bind {A B : Type} (c : Stateful A) (f : A -> Stateful B) :
  reads_only_math_and_abs c ->
  (forall a, reads_only_math_and_abs (f a)) ->
  reads_only_math_and_abs (bind_in c f).
Proof.
  intros [Fc Nc] Hf. split.
  - intros ns. unfold bind_in. specialize (Fc ns).
    destruct (c ns) as [ns' [[a|e|]|e]]; cbn [fst] in *; try exact Fc.
    subst ns'. apply (Hf a).
  - intros ns1 ns2 Hs. unfold bind_in.
    pose proof (Fc ns1) as F1. pose proof (Fc ns2) as F2.
    specialize (Nc ns1 ns2 Hs).
    destruct (c ns1) as [n1 r1]; destruct (c ns2) as [n2 r2].
    cbn [fst snd] in *. subst n1 n2 r2.
    destruct r1 as [[a|e|]|e]; try reflexivity.
    apply (Hf a). exact Hs.
Qed.

Lemma reads_load_math : reads_only_math_and_abs (load_name "math").
Proof.
  split; [reflexivity|]. intros ns1 ns2 [Hm _].
  unfold load_name. cbn [snd]. rewrite Hm. reflexivity.
Qed.

Lemma reads_load_abs : reads_only_math_and_abs (load_name "abs").
Proof.
  split; [reflexivity|]. intros ns1 ns2 [_ Ha].
  unfold load_name. cbn [snd]. rewrite Ha. reflexivity.
Qed.

Lemma reads_getattr (o : PyObj) (attr : String.string) :
  reads_only_math_and_abs (getattr o attr).
Proof.
  unfold getattr. destruct o; try apply reads_fail.
  repeat match goal with
         | |- context [if ?b then _ else _] => destruct b
         end; first [apply reads_unit | apply reads_fail].
Qed.

Lemma reads_call_obj (o : PyObj) (arg : float) :
  reads_only_math_and_abs (call_obj o arg).
Proof.
  unfold call_obj. destruct o; first [apply reads_lift | apply reads_fail].
Qed.

Lemma reads_call_math (attr : String.string) (arg : float) :
  reads_only_math_and_abs (call_math attr arg).
Proof.
  unfold call_math. apply reads_bind; [apply reads_load_math|].
  intros m. apply reads_bind; [apply reads_getattr|].
  intros f. apply reads_call_obj.
Qed.

Lemma reads_while (t k : float) (fuel : nat) :
  forall st, reads_only_math_and_abs (while_in fuel t k st).
Proof.
  induction fuel as [|f IH]; intros st; cbn [while_in];
    (apply reads_bind;
     [ unfold loop_cond_in, call_abs;
       apply reads_bind;
       [ apply reads_bind; [apply reads_load_abs | intros o; apply reads_call_obj]
       | intros a; apply reads_unit ]
     | intros [|]; [|apply reads_unit] ]).
  - apply reads_lift.
  - apply reads_bind; [apply reads_lift | intros st'; apply IH].
Qed.

Lemma reads_chi2 (fuel : nat) (x df : float) :
  reads_only_math_and_abs (chi2_cdf_upper_tail_in fuel x df).
Proof.
  unfold chi2_cdf_upper_tail_in.
  apply reads_bind; [apply reads_lift | intros k].
  apply reads_bind; [apply reads_lift | intros t].
  destruct (x <=? 0); [apply reads_unit|].
  apply reads_bind; [apply reads_call_math | intros l].
  apply reads_bind; [apply reads_call_math | intros g].
  cbv zeta.
  apply reads_bind; [apply reads_while | intros st].
  apply reads_bind; [apply reads_call_math | intros e].
  apply reads_unit.
Qed.

(** * The claims *)

(** C1.  For every [x > 0] and [df > 0], [chi2_cdf_upper_tail(x, df)] is
    [1.0 - exp(log_term) * S] with [k = df/2], [t = x/2],
    [log_term = k*ln(t) - t - lnGamma(k+1)] and [S] the partial series sum:
    [term] and [sum] start at 1, the [i]-th update multiplies [term] by
    [t / (k + i)] and adds it to [sum], up to the first index at which the
    loop condition fails.  The equation is one of outcomes: where a call of
    [math] raises, both sides raise the same exception. *)
Theorem chi2_series_form (math : MathModule) (fuel : nat) (x df : float) :
  (0 <? x) = true -> (0 <? df) = true -> (1999 <= fuel)%nat ->
  chi2_cdf_upper_tail math fuel x df = Spec.upper_tail math x df.
Proof.
  intros Hx Hdf Hfuel.
  rewrite chi2_positive_branch by (apply ltb_leb_false; exact Hx).
  rewrite (while_stop_index _ _ (divisors_of_positive_df df Hdf))
    by (pose proof (stop_index_le (x / 2) (df / 2)); lia).
  unfold Spec.upper_tail, Spec.partial_sum. cbv zeta.
  destruct (math_log math (x / 2)) as [l|e]; cbn [bind of_result];
    [|reflexivity].
  destruct (math_lgamma math (df / 2 + 1)) as [g|e]; cbn [bind of_result];
    reflexivity.
Qed.

Lemma chi2_series_form_witness :
  (0 <? 50) = true /\ (0 <? 15) = true /\
  chi2_cdf_upper_tail (PyMath.cpython sample_libm) 1999 50 15 =
  Spec.upper_tail (PyMath.cpython sample_libm) 50 15.
Proof.
  split; [reflexivity|]. split; [reflexivity|].
  apply chi2_series_form; [reflexivity | reflexivity | apply le_n].
Defined.

(** C2.  For every [x <= 0] and every [df > 0], the function returns
    exactly [1.0]. *)
Theorem chi2_nonpositive_x (math : MathModule) (fuel : nat) (x df : float) :
  (x <=? 0) = true -> (0 <? df) = true ->
  chi2_cdf_upper_tail math fuel x df = Ok 1.
Proof.
  intros Hx _. apply chi2_guard. exact Hx.
Qed.

Lemma chi2_nonpositive_x_witness :
  (-3 <=? 0) = true /\ (0 <? 15) = true /\
  chi2_cdf_upper_tail (PyMath.cpython sample_libm) 1999 (-3) 15 = Ok 1.
Proof.
  split; [reflexivity|]. split; [reflexivity|].
  apply chi2_nonpositive_x; reflexivity.
Defined.

(** C3.  For every [x > 0] and [df > 0] the loop terminates, after
    [N = stop_index] executions of its body, at most 1999 (so at most 2000):
    every test before passed, a term [<= 1e-15] is met at [N] or not at all,
    a stop before the cap is a stop on the term, and the function returns
    [1.0 - e * sum] with the partial sum after these [N] updates. *)
Theorem series_loop_terminates (x df : float) :
  (0 <? x) = true -> (0 <? df) = true ->
  let t := x / 2 in
  let k := df / 2 in
  let N := Spec.stop_index t k in
  (N <= 1999)%nat /\
  (forall fuel, (N <= fuel)%nat ->
     while fuel t k loop_init = Ok (Spec.state_at t k N)) /\
  (forall i, (i < N)%nat -> Spec.continues t k i = true) /\
  (forall i, (i <= N)%nat -> Spec.converged t k i = true -> i = N) /\
  ((N < 1999)%nat -> (tolerance <? abs (Spec.series_term t k N)) = false) /\
  (forall math fuel l g e, (1999 <= fuel)%nat ->
     math_log math t = Value l ->
     math_lgamma math (k + 1) = Value g ->
     math_exp math (k * l - t - g) = Value e ->
     chi2_cdf_upper_tail math fuel x df =
     Ok (1 - e * Spec.series_sum t k N)).
Proof.
  intros Hx Hdf t k N.
  pose proof (divisors_of_positive_df df Hdf) as Hdiv. fold k in Hdiv.
  pose proof (stop_index_le t k) as HN. fold N in HN.
  assert (Hstop : Spec.continues t k N = false)
    by (apply first_stop_stops; lia).
  split; [exact HN|]. split; [|split; [|split; [|split]]].
  - intros fuel Hf. apply while_stop_index; assumption.
  - intros i Hi. apply (first_stop_before t k 1999 0). fold (Spec.stop_index t k).
    fold N. lia.
  - intros i Hi Hconv. unfold Spec.converged in Hconv.
    apply leb_ltb_false in Hconv.
    destruct (Nat.eq_dec i N) as [E|NE]; [exact E|exfalso].
    assert (Hc : Spec.continues t k i = true).
    { apply (first_stop_before t k 1999 0). fold (Spec.stop_index t k).
      fold N. lia. }
    unfold Spec.continues in Hc. rewrite Hconv in Hc. discriminate.
  - intros Hlt. unfold Spec.continues in Hstop.
    apply andb_false_iff in Hstop. destruct Hstop as [H|H]; [exact H|].
    apply Z.ltb_ge in H. lia.
  - intros math fuel l g e Hf Hl Hg He.
    rewrite chi2_positive_branch by (apply ltb_leb_false; exact Hx).
    fold t k. rewrite Hl, Hg. cbn [bind of_result].
    rewrite (while_stop_index t k Hdiv) by (fold N; lia).
    cbn [bind]. rewrite He. reflexivity.
Qed.

Lemma series_loop_terminates_witness :
  (0 <? 50) = true /\ (0 <? 15) = true /\
  while 1999 (50 / 2) (15 / 2) loop_init =
  Ok (Spec.state_at (50 / 2) (15 / 2) (Spec.stop_index (50 / 2) (15 / 2))).
Proof.
  split; [reflexivity|]. split; [reflexivity|].
  destruct (series_loop_terminates 50 15 eq_refl eq_refl) as [HN [Hw _]].
  apply Hw. exact HN.
Defined.

(** C4.  At [x = 5000.0], [df = 1.0] the series sum overflows to infinity
    within the 1999 updates, so whatever the [math] module returns the
    result is [1 - e * inf]: an infinity or a NaN, or an exception, and in
    no case a value of the interval [0, 1]. *)
Theorem chi2_5000_1_not_probability (math : MathModule) (fuel : nat) :
  returns_probability (chi2_cdf_upper_tail math fuel 5000 1) = false.
Proof.
  rewrite chi2_positive_branch by reflexivity.
  change (5000 / 2) with 2500. change (1 / 2) with 0.5.
  destruct (math_log math 2500) as [l|e]; cbn [bind of_result];
    [|reflexivity].
  destruct (math_lgamma math (0.5 + 1)) as [g|e]; cbn [bind of_result];
    [|reflexivity].
  destruct (while fuel 2500 0.5 loop_init) as [st|e|] eqn:W; cbn [bind];
    [|reflexivity|reflexivity].
  apply (while_mono _ _ _ _ _ (Nat.max fuel 1999)) in W; [|lia].
  destruct (while_enough_fuel 2500 0.5 (Nat.max fuel 1999) loop_init 1999)
    as [E _]; [apply Nat.le_max_r | apply le_n |].
  rewrite E, series_at_5000_1 in W. inversion W; subst st.
  cbn [sum_val].
  destruct (math_exp math (0.5 * l - 2500 - g)) as [v|e];
    cbn [bind of_result]; [|reflexivity].
  apply one_minus_times_inf.
Qed.

(** C5.  [x = 5e-324], the smallest positive double, passes the guard
    [x <= 0], its half [t] rounds to [0.0], and [math.log(0.0)] raises:
    the call ends in a [ValueError], for every [df] and every libm. *)
Theorem chi2_min_subnormal_raises (M : Libm) (fuel : nat) (df : float) :
  (0 <? min_subnormal) = true /\
  min_subnormal / 2 = 0 /\
  chi2_cdf_upper_tail (PyMath.cpython M) fuel min_subnormal df =
  Raise ValueError.
Proof.
  split; [reflexivity|]. split; [reflexivity|].
  rewrite chi2_positive_branch by reflexivity.
  change (min_subnormal / 2) with 0. reflexivity.
Qed.

(** C6.  [x1 = 0.0 <= x2 = 5000.0] at [df = 1.0]: under a libm that is
    accurate there, the first call returns [1.0] and the second a NaN, and
    [nan <= 1.0] is false: the results are not ordered. *)
Theorem chi2_not_monotone_at_5000 (M : Libm) (fuel : nat) :
  accurate_at_5000_1 M = true -> (1999 <= fuel)%nat ->
  (0 <? 1) = true /\ (0 <=? 5000) = true /\
  exists v1 v2,
    chi2_cdf_upper_tail (PyMath.cpython M) fuel 0 1 = Ok v1 /\
    chi2_cdf_upper_tail (PyMath.cpython M) fuel 5000 1 = Ok v2 /\
    (v2 <=? v1) = false.
Proof.
  intros Hacc Hfuel. split; [reflexivity|]. split; [reflexivity|].
  exists 1, nan. split; [|split].
  - apply chi2_guard. reflexivity.
  - apply chi2_5000_1_nan; assumption.
  - reflexivity.
Qed.

Lemma chi2_not_monotone_at_5000_witness :
  accurate_at_5000_1 sample_libm = true /\
  exists v1 v2,
    chi2_cdf_upper_tail (PyMath.cpython sample_libm) 1999 0 1 = Ok v1 /\
    chi2_cdf_upper_tail (PyMath.cpython sample_libm) 1999 5000 1 = Ok v2 /\
    (v2 <=? v1) = false.
Proof.
  split; [vm_compute; reflexivity|].
  refine (proj2 (proj2 (chi2_not_monotone_at_5000 sample_libm 1999 _ _)));
    [vm_compute; reflexivity | apply le_n].
Defined.

(** C7, as the code has it.  Under a libm that is accurate where the call
    uses it, [chi2_cdf_upper_tail(50.0, 15)] returns a value between
    1.20e-5 and 1.21e-5 (the upper tail there is 1.2041e-5). *)
Theorem chi2_50_15_value (M : Libm) (fuel : nat) :
  accurate_at_50_15 M = true -> (1999 <= fuel)%nat ->
  exists v,
    chi2_cdf_upper_tail (PyMath.cpython M) fuel 50 15 = Ok v /\
    between_120_and_121e_7 v = true.
Proof.
  intros Hacc Hfuel.
  destruct (chi2_50_15_run M fuel Hacc Hfuel) as [v [Hv [Hin _]]].
  exists v. split; assumption.
Qed.

Lemma chi2_50_15_value_witness :
  accurate_at_50_15 sample_libm = true /\
  exists v,
    chi2_cdf_upper_tail (PyMath.cpython sample_libm) 1999 50 15 = Ok v /\
    between_120_and_121e_7 v = true.
Proof.
  split; [vm_compute; reflexivity|].
  apply chi2_50_15_value; [vm_compute; reflexivity | apply le_n].
Defined.

(** C7, as stated, fails: no libm that is accurate where the call uses it
    makes [chi2_cdf_upper_tail(50.0, 15)] return a value between 9.99e-6 and
    1.01e-5. *)
Lemma chi2_50_15_not_within_1pct :
  ~ exists M : Libm,
      accurate_at_50_15 M = true /\
      exists v,
        chi2_cdf_upper_tail (PyMath.cpython M) 1999 50 15 = Ok v /\
        within_1pct_of_1e_5 v = true.
Proof.
  intros [M [Hacc [v [Hv Hin]]]].
  destruct (chi2_50_15_run M 1999 Hacc (le_n _)) as [w [Hw [_ Hout]]].
  rewrite Hv in Hw. inversion Hw; subst w. congruence.
Qed.




(** C9, as the code has it.  For every [x > 0] and [df > 0], on every
    execution of the loop body the counter [n] is at least 1 (and below
    2000), [k = df/2] is not negative, the divisor [k + n] is strictly
    positive, and the division [t / (k + n)] raises no [ZeroDivisionError]:
    the body gives a state. *)
Theorem loop_divisor_positive (x df : float) (st : loop_state) :
  (0 <? x) = true -> (0 <? df) = true ->
  reached (x / 2) (df / 2) st -> loop_cond st = true ->
  (1 <= n st < 2000)%Z /\
  (0 <=? df / 2) = true /\
  (0 <? df / 2 + PyFloat.of_int (n st)) = true /\
  PyFloat.truediv (x / 2) (df / 2 + PyFloat.of_int (n st)) =
    Value (x / 2 / (df / 2 + PyFloat.of_int (n st))) /\
  exists st', loop_body (x / 2) (df / 2) st = Ok st'.
Proof.
  intros _ Hdf Hr Hc.
  assert (Hn : (1 <= n st < 2000)%Z).
  { split; [exact (reached_n _ _ _ Hr)|].
    unfold loop_cond in Hc. apply andb_true_iff in Hc.
    destruct Hc as [_ Hc]. apply Z.ltb_lt in Hc. exact Hc. }
  pose proof (divisors_of_positive_df df Hdf (n st) Hn) as Hpos.
  split; [exact Hn|]. split; [apply nonneg_leb, half_nonneg; exact Hdf|].
  split; [apply ltb_0_strictly_pos; exact Hpos|].
  split; [apply truediv_strictly_pos; exact Hpos|].
  unfold loop_body. rewrite (truediv_strictly_pos _ _ Hpos).
  cbn [bind of_result]. eexists. reflexivity.
Qed.

Lemma loop_divisor_positive_witness :
  (0 <? 50) = true /\ (0 <? 15) = true /\
  reached (50 / 2) (15 / 2) loop_init /\ loop_cond loop_init = true /\
  (0 <? 15 / 2 + PyFloat.of_int (n loop_init)) = true.
Proof.
  split; [reflexivity|]. split; [reflexivity|].
  split; [apply reached_init|]. split; [reflexivity|].
  exact (proj1 (proj2 (proj2
    (loop_divisor_positive 50 15 loop_init eq_refl eq_refl
       (reached_init (50 / 2) (15 / 2)) eq_refl)))).
Defined.

(** C9, as stated, fails in its reason [k = df/2 > 0]: for [df = 5e-324],
    which is positive, [k] is [0.0], and the loop body is executed with it
    (here at [x = 50.0]). *)
Lemma half_of_min_subnormal_not_positive :
  (0 <? 50) = true /\ (0 <? min_subnormal) = true /\
  reached (50 / 2) (min_subnormal / 2) loop_init /\
  loop_cond loop_init = true /\
  (0 <? min_subnormal / 2) = false /\
  min_subnormal / 2 = 0.
Proof.
  split; [reflexivity|]. split; [reflexivity|].
  split; [apply reached_init|]. repeat split.
Qed.

(** C10.  For every [x <= 0] and every [df], also [df <= 0], the function
    returns [1.0] whatever the [math] module is and with no fuel at all:
    also with a module whose every function raises and with a loop that may
    not run its body, so neither is evaluated.  The two halvings before the
    guard do not raise. *)
Theorem chi2_guard_precedes_math (x df : float) :
  (x <=? 0) = true ->
  (forall math fuel, chi2_cdf_upper_tail math fuel x df = Ok 1) /\
  chi2_cdf_upper_tail PyMath.raising 0 x df = Ok 1 /\
  PyFloat.truediv df 2 = Value (df / 2) /\
  PyFloat.truediv x 2 = Value (x / 2).
Proof.
  intros Hx. split; [|split; [|split]].
  - intros math fuel. apply chi2_guard. exact Hx.
  - apply chi2_guard. exact Hx.
  - apply truediv_2.
  - apply truediv_2.
Qed.

Lemma chi2_guard_precedes_math_witness :
  (0 <=? 0) = true /\
  chi2_cdf_upper_tail PyMath.raising 0 0 (-4) = Ok 1.
Proof.
  split; [reflexivity|].
  exact (proj1 (proj2 (chi2_guard_precedes_math 0 (-4) eq_refl))).
Defined.

(** * Further properties of [chi2_cdf_upper_tail] *)

(** ** NaN and infinity *)

Lemma nan_div (d : float) : nan / d = nan.
Proof.
  apply Prim2SF_inj. rewrite div_spec.
  change (Prim2SF nan) with S754_nan. reflexivity.
Qed.

Lemma mul_nan (a : float) : a * nan = nan.
Proof.
  apply Prim2SF_inj. rewrite mul_spec.
  change (Prim2SF nan) with S754_nan.
  destruct (Prim2SF a); reflexivity.
Qed.

Lemma nan_sub (a : float) : nan - a = nan.
Proof.
  apply Prim2SF_inj. rewrite sub_spec.
  change (Prim2SF nan) with S754_nan. reflexivity.
Qed.

(** [math.lgamma] returns whenever the platform's routine does not
    overflow, away from the poles. *)
Lemma lgamma_returns (M : Libm) (df : float) :
  (0 <? df) = true ->
  is_infinity (libm_lgamma M (df / 2 + 1)) = false ->
  exists g, PyMath.lgamma M (df / 2 + 1) = Value g.
Proof.
  intros Hdf Hg. pose proof (lgamma_argument_pos df Hdf) as Hk1.
  unfold PyMath.lgamma.
  rewrite (strictly_pos_not_nan _ Hk1).
  destruct (is_infinity (df / 2 + 1)); [eexists; reflexivity|].
  rewrite (ltb_leb_false 0 (df / 2 + 1))
    by (apply ltb_0_strictly_pos; exact Hk1).
  rewrite andb_false_r. cbv zeta. rewrite Hg. eexists. reflexivity.
Qed.

(** X1.  A NaN for [x] passes through.  For [df > 0], when the platform's
    lgamma does not overflow at [k + 1], the guard [x <= 0] is false for a
    NaN, the loop runs its body once and stops on [abs(term) > 1e-15] being
    false, with [term] and [sum_val] NaN, and the function returns NaN with
    no exception. *)
Theorem chi2_nan_x (M : Libm) (fuel : nat) (df : float) :
  (0 <? df) = true ->
  is_infinity (libm_lgamma M (df / 2 + 1)) = false ->
  (1 <= fuel)%nat ->
  (nan <=? 0) = false /\
  while fuel (nan / 2) (df / 2) loop_init =
    Ok {| sum_val := nan; term := nan; n := 2 |} /\
  chi2_cdf_upper_tail (PyMath.cpython M) fuel nan df = Ok nan.
Proof.
  intros Hdf Hg Hfuel. split; [reflexivity|].
  change (nan / 2) with nan.
  assert (Hw : while fuel nan (df / 2) loop_init =
               Ok {| sum_val := nan; term := nan; n := 2 |}).
  { destruct fuel as [|f]; [lia|]. rewrite while_unfold.
    change (loop_cond loop_init) with true. cbv iota.
    unfold loop_body. change (n loop_init) with 1%Z.
    rewrite truediv_strictly_pos
      by (apply divisors_of_positive_df; [exact Hdf | lia]).
    cbn [bind of_result]. rewrite nan_div.
    change (term loop_init * nan) with nan.
    change (sum_val loop_init + nan) with nan.
    rewrite while_unfold. reflexivity. }
  split; [exact Hw|].
  rewrite chi2_positive_branch by reflexivity.
  change (nan / 2) with nan.
  cbn [math_log math_lgamma math_exp PyMath.cpython].
  change (PyMath.log M nan) with (@Value float nan).
  destruct (lgamma_returns M df Hdf Hg) as [g Eg]. rewrite Eg.
  cbn [bind of_result]. rewrite Hw. cbn [bind sum_val].
  rewrite mul_nan, !nan_sub.
  unfold PyMath.exp. cbv zeta.
  change (is_nan nan) with true. change (is_finite nan) with false.
  rewrite !andb_false_r. cbn [bind of_result negb].
  rewrite mul_nan. reflexivity.
Qed.

Lemma chi2_nan_x_witness :
  (0 <? 15) = true /\
  chi2_cdf_upper_tail (PyMath.cpython sample_libm) 1 nan 15 = Ok nan.
Proof.
  split; [reflexivity|].
  exact (proj2 (proj2 (chi2_nan_x sample_libm 1 15 eq_refl eq_refl (le_n 1)))).
Defined.

(** ** An infinite [t] *)

Lemma inf_div_pos (d : float) :
  strictly_pos (Prim2SF d) -> inf_or_nan (infinity / d).
Proof.
  intros Hd. unfold inf_or_nan. rewrite div_spec.
  change (Prim2SF infinity) with (S754_infinity false).
  destruct (Prim2SF d) as [s|[|]| |[|] m e]; try contradiction;
    [right | left]; reflexivity.
Qed.

Lemma mul_inf_or_nan (a b : float) :
  inf_or_nan a -> inf_or_nan b -> inf_or_nan (a * b).
Proof.
  unfold inf_or_nan. rewrite mul_spec.
  intros [-> | ->] [-> | ->]; [left | right | right | right]; reflexivity.
Qed.

Lemma add_inf_or_nan (a b : float) :
  inf_or_nan a -> inf_or_nan b -> inf_or_nan (a + b).
Proof.
  unfold inf_or_nan. rewrite add_spec.
  intros [-> | ->] [-> | ->]; [left | right | right | right]; reflexivity.
Qed.

Lemma one_mul_inf_or_nan (b : float) : inf_or_nan b -> inf_or_nan (1 * b).
Proof.
  unfold inf_or_nan. rewrite mul_spec.
  change (Prim2SF 1) with (S754_finite false 4503599627370496 (-52)).
  intros [-> | ->]; [left | right]; reflexivity.
Qed.

Lemma one_add_inf_or_nan (b : float) : inf_or_nan b -> inf_or_nan (1 + b).
Proof.
  unfold inf_or_nan. rewrite add_spec.
  change (Prim2SF 1) with (S754_finite false 4503599627370496 (-52)).
  intros [-> | ->]; [left | right]; reflexivity.
Qed.

Lemma one_minus_times_inf_or_nan (e s : float) :
  inf_or_nan s -> in_unit_interval (1 - e * s) = false.
Proof.
  unfold inf_or_nan, in_unit_interval.
  rewrite !leb_spec, sub_spec, mul_spec.
  change (Prim2SF 1) with (S754_finite false 4503599627370496 (-52)).
  rewrite Prim2SF_zero.
  intros [-> | ->]; destruct (Prim2SF e) as [s0|[|]| |[|] m x]; reflexivity.
Qed.

(** Once [term] and [sum_val] are infinite or NaN they stay so. *)
Lemma while_inf (k : float) (fuel : nat) : forall st st',
  nonneg (Prim2SF k) -> (1 <= n st)%Z ->
  inf_or_nan (term st) -> inf_or_nan (sum_val st) ->
  while fuel infinity k st = Ok st' -> inf_or_nan (sum_val st').
Proof.
  induction fuel as [|f IH]; intros st st' Hk Hn Ht Hs;
    rewrite while_unfold; destruct (loop_cond st) eqn:Hc;
    try discriminate; try (intros H; inversion H; subst; exact Hs).
  unfold loop_cond in Hc. apply andb_true_iff in Hc.
  destruct Hc as [_ Hc]. apply Z.ltb_lt in Hc.
  assert (Hd : strictly_pos (Prim2SF (k + PyFloat.of_int (n st))))
    by (apply divisor_pos; [exact Hk | lia]).
  unfold loop_body. rewrite (truediv_strictly_pos _ _ Hd).
  cbn [bind of_result]. apply IH; cbn [n term sum_val]; try assumption;
    try lia.
  - apply mul_inf_or_nan; [exact Ht | apply inf_div_pos; exact Hd].
  - apply add_inf_or_nan; [exact Hs|].
    apply mul_inf_or_nan; [exact Ht | apply inf_div_pos; exact Hd].
Qed.

(** X2.  For [x = inf] and every [df > 0] the series sum that the loop
    leaves is [inf] or NaN, and whatever the [math] module is, the call
    returns no value between 0 and 1: it raises, or returns a NaN or an
    infinity. *)
Theorem chi2_inf_x (math : MathModule) (fuel : nat) (df : float) :
  (0 <? df) = true ->
  (forall st, while fuel (infinity / 2) (df / 2) loop_init = Ok st ->
     inf_or_nan (sum_val st)) /\
  returns_probability (chi2_cdf_upper_tail math fuel infinity df) = false.
Proof.
  intros Hdf. change (infinity / 2) with infinity.
  pose proof (half_nonneg df Hdf) as Hk.
  assert (Hw : forall st, while fuel infinity (df / 2) loop_init = Ok st ->
                 inf_or_nan (sum_val st)).
  { intros st. rewrite while_unfold.
    change (loop_cond loop_init) with true. cbv iota.
    destruct fuel as [|f]; [discriminate|].
    assert (Hd : strictly_pos (Prim2SF (df / 2 + PyFloat.of_int 1)))
      by (apply divisor_pos; [exact Hk | lia]).
    unfold loop_body. change (n loop_init) with 1%Z.
    rewrite (truediv_strictly_pos _ _ Hd). cbn [bind of_result].
    change (term loop_init) with 1. change (sum_val loop_init) with 1.
    apply while_inf; cbn [n term sum_val]; try assumption; try lia.
    - apply one_mul_inf_or_nan, inf_div_pos; exact Hd.
    - apply one_add_inf_or_nan, one_mul_inf_or_nan, inf_div_pos; exact Hd. }
  split; [exact Hw|].
  rewrite chi2_positive_branch by reflexivity.
  change (infinity / 2) with infinity.
  destruct (math_log math infinity) as [l|e]; cbn [bind of_result];
    [|reflexivity].
  destruct (math_lgamma math (df / 2 + 1)) as [g|e]; cbn [bind of_result];
    [|reflexivity].
  destruct (while fuel infinity (df / 2) loop_init) as [st|e|] eqn:W;
    cbn [bind]; [|reflexivity|reflexivity].
  destruct (math_exp math (df / 2 * l - infinity - g)) as [v|e];
    cbn [bind of_result]; [|reflexivity].
  apply one_minus_times_inf_or_nan, Hw. reflexivity.
Qed.

Lemma chi2_inf_x_witness :
  (0 <? 15) = true /\
  returns_probability
    (chi2_cdf_upper_tail (PyMath.cpython sample_libm) 1999 infinity 15) = false.
Proof.
  split; [reflexivity|].
  exact (proj2 (chi2_inf_x (PyMath.cpython sample_libm) 1999 15 eq_refl)).
Defined.

(** ** When a sum of doubles is zero *)

Module SFZero.
Local Open Scope Z_scope.

(** Rounding a non-zero value above the smallest subnormal gives no zero,
    whatever the sign. *)
Lemma binary_round_aux_nonzero (s : bool) (m e : Z) (l : location) :
  0 < m -> SpecFloat.emin prec emax < Zdigits2 m + e ->
  forall z, binary_round_aux prec emax s m e l <> S754_zero z.
Proof.
  intros Hm Hmag z. unfold binary_round_aux.
  destruct (SF.shr_fexp_pos m e l Hm Hmag) as [Hm1 Hd1].
  destruct (shr_fexp prec emax m e l) as [mrs1 e1]. cbn [fst snd] in Hm1, Hd1.
  set (m2 := round_nearest_even (shr_m mrs1) (loc_of_shr_record mrs1)).
  pose proof (SF.round_nearest_even_bounds (shr_m mrs1)
                (loc_of_shr_record mrs1)) as Hr.
  fold m2 in Hr.
  assert (Hd2 : Zdigits2 (shr_m mrs1) <= Zdigits2 m2)
    by (apply SF.Zdigits2_le; lia).
  destruct (SF.shr_fexp_pos m2 e1 loc_Exact) as [Hm3 _]; [lia | lia |].
  destruct (shr_fexp prec emax m2 e1 loc_Exact) as [mrs3 e3].
  cbn [fst snd] in Hm3.
  destruct (shr_m mrs3) as [|p|p]; try lia.
  destruct (e3 <=? emax - prec); discriminate.
Qed.

Lemma binary_round_nonzero (s : bool) (m : positive) (e : Z) :
  SpecFloat.emin prec emax <= e ->
  forall z, binary_round prec emax s m e <> S754_zero z.
Proof.
  intros He z. unfold binary_round.
  pose proof (SF.shl_align_magnitude m e
                (fexp prec emax (Zpos (digits2_pos m) + e))) as Hs.
  destruct (shl_align m e (fexp prec emax (Zpos (digits2_pos m) + e)))
    as [mz ez].
  cbn [fst snd] in Hs. pose proof (Pos2Z.is_pos (digits2_pos m)).
  apply binary_round_aux_nonzero; cbn [Zdigits2]; lia.
Qed.

(** The exponent of a valid double is canonical. *)
Lemma valid_canonical (s : bool) (m : positive) (e : Z) :
  valid_binary (S754_finite s m e) = true ->
  fexp prec emax (Zpos (digits2_pos m) + e) = e.
Proof.
  cbn [SpecFloat.valid_binary]. unfold bounded, canonical_mantissa.
  intros H. apply andb_true_iff in H. destruct H as [H _].
  apply Z.eqb_eq in H. exact H.
Qed.

Lemma valid_emin (s : bool) (m : positive) (e : Z) :
  valid_binary (S754_finite s m e) = true -> SpecFloat.emin prec emax <= e.
Proof.
  intros H. apply valid_canonical in H. unfold fexp in H. lia.
Qed.

Lemma shl_align_same (m : positive) (e : Z) : shl_align m e e = (m, e).
Proof. unfold shl_align. rewrite Z.sub_diag. reflexivity. Qed.

(** A sum with a positive finite double is zero only for its opposite. *)
Lemma add_zero (a : spec_float) (mb : positive) (eb : Z) (z : bool) :
  valid_binary a = true -> valid_binary (S754_finite false mb eb) = true ->
  SF64add a (S754_finite false mb eb) = S754_zero z ->
  a = S754_finite true mb eb.
Proof.
  intros Va Vb. unfold SF64add, SFadd.
  destruct a as [sa|sa| |sa ma ea]; try discriminate;
    try (destruct sa; discriminate).
  cbv zeta.
  pose proof (valid_emin _ _ _ Va) as Ha. pose proof (valid_emin _ _ _ Vb) as Hb.
  pose proof (valid_canonical _ _ _ Va) as Ca.
  pose proof (valid_canonical _ _ _ Vb) as Cb.
  pose proof (SF.shl_align_magnitude ma ea (Z.min ea eb)) as Ma.
  pose proof (SF.shl_align_magnitude mb eb (Z.min ea eb)) as Mb.
  pose proof (SF.shl_align_snd ma ea (Z.min ea eb) (Z.le_min_l _ _)) as Sa.
  pose proof (SF.shl_align_snd mb eb (Z.min ea eb) (Z.le_min_r _ _)) as Sb.
  destruct (shl_align ma ea (Z.min ea eb)) as [ma' ea'] eqn:Ea.
  destruct (shl_align mb eb (Z.min ea eb)) as [mb' eb'] eqn:Eb.
  cbn [fst snd] in *. subst ea' eb'.
  destruct sa; cbn [cond_Zopp].
  - destruct (- Z.pos ma' + Z.pos mb') as [|p|p] eqn:Esum;
      cbn [binary_normalize]; intros H.
    + assert (ma' = mb') by lia. subst mb'.
      assert (ea = eb) by congruence. subst eb.
      rewrite Z.min_id, shl_align_same in Ea, Eb.
      inversion Ea; inversion Eb; subst. reflexivity.
    + exfalso. revert H. apply binary_round_nonzero. lia.
    + exfalso. revert H. apply binary_round_nonzero. lia.
  - change (Z.pos ma' + Z.pos mb') with (Z.pos (ma' + mb')).
    cbn [binary_normalize]. intros H.
    exfalso. revert H. apply binary_round_nonzero. lia.
Qed.

End SFZero.

(** A loop divisor [k + n] is zero only for [k = -n]. *)
Lemma divisor_zero (k : float) (i : Z) :
  (1 <= i < 2000)%Z ->
  (k + PyFloat.of_int i =? 0) = true -> k = - PyFloat.of_int i.
Proof.
  intros Hi H. rewrite eqb_spec, Prim2SF_zero, add_spec in H.
  pose proof (of_int_at_least_1 i Hi) as Hc.
  pose proof (Prim2SF_valid (PyFloat.of_int i)) as Vc.
  pose proof (Prim2SF_valid k) as Vk.
  apply Prim2SF_inj. rewrite opp_spec.
  destruct (Prim2SF (PyFloat.of_int i)) as [s|[|]| |[|] m e] eqn:Ec;
    try contradiction.
  - exfalso. destruct (Prim2SF k) as [sk|[|]| |sk mk ek]; discriminate.
  - destruct (SF64add (Prim2SF k) (S754_finite false m e))
      as [z|z| |z mz ez] eqn:Es; try discriminate;
      try (destruct z; discriminate).
    rewrite (SFZero.add_zero _ _ _ _ Vk Vc Es). reflexivity.
Qed.

(** ** The exceptions of CPython's [math] *)

Lemma log_error (M : Libm) (x : float) (e : PyExc) :
  PyMath.log M x = Error e -> e = ValueError.
Proof.
  unfold PyMath.log. cbv zeta.
  repeat match goal with
         | |- context [if ?b then _ else _] => destruct b
         end; intros H; inversion H; reflexivity.
Qed.

Lemma lgamma_error (M : Libm) (x : float) (e : PyExc) :
  PyMath.lgamma M x = Error e -> e = ValueError \/ e = OverflowError.
Proof.
  unfold PyMath.lgamma. cbv zeta.
  repeat match goal with
         | |- context [if ?b then _ else _] => destruct b
         end; intros H; inversion H; auto.
Qed.

Lemma exp_error (M : Libm) (x : float) (e : PyExc) :
  PyMath.exp M x = Error e -> e = ValueError \/ e = OverflowError.
Proof.
  unfold PyMath.exp. cbv zeta.
  repeat match goal with
         | |- context [if ?b then _ else _] => destruct b
         end; intros H; inversion H; auto.
Qed.

(** [math.lgamma] raises at every pole, whatever the libm. *)
Lemma lgamma_pole (M : Libm) (a : float) :
  PyFloat.is_integral a && (a <=? 0) = true ->
  PyMath.lgamma M a = Error ValueError.
Proof.
  intros H. unfold PyMath.lgamma. rewrite H.
  apply andb_true_iff in H. destruct H as [H _].
  unfold PyFloat.is_integral in H.
  assert (Hnan : is_nan a = false).
  { unfold is_nan. rewrite eqb_spec. unfold SFeqb.
    destruct (Prim2SF a) as [s|s| |s m e]; try discriminate; simpl.
    - reflexivity.
    - rewrite Z.compare_refl.
      change (Pos.compare_cont Eq m m) with (Pos.compare m m).
      rewrite Pos.compare_refl. destruct s; reflexivity. }
  assert (Hinf : is_infinity a = false).
  { unfold is_infinity. rewrite eqb_spec, abs_spec. unfold SFeqb.
    destruct (Prim2SF a) as [s|s| |s m e]; try discriminate; reflexivity. }
  rewrite Hnan, Hinf. reflexivity.
Qed.

Lemma poles_below_2000 : forallb pole_at (seq 1 1999) = true.
Proof. vm_compute. reflexivity. Qed.

Lemma divisor_zero_pole (M : Libm) (k : float) (i : Z) :
  (1 <= i < 2000)%Z ->
  (k + PyFloat.of_int i =? 0) = true ->
  PyMath.lgamma M (k + 1) = Error ValueError.
Proof.
  intros Hi H. rewrite (divisor_zero k i Hi H).
  apply lgamma_pole.
  pose proof (forallb_In pole_at (seq 1 1999) (Z.to_nat i) poles_below_2000)
    as Hp.
  unfold pole_at in Hp. cbv zeta in Hp.
  rewrite Z2Nat.id in Hp by lia. apply Hp. apply in_seq. lia.
Qed.

(** Without a zero divisor the loop raises nothing. *)
Lemma while_no_raise (t k : float) (fuel : nat) :
  (forall i : Z, (1 <= i < 2000)%Z -> (k + PyFloat.of_int i =? 0) = false) ->
  forall st e, (1 <= n st)%Z -> while fuel t k st <> Raise e.
Proof.
  intros Hdiv. induction fuel as [|f IH]; intros st e Hn;
    rewrite while_unfold; destruct (loop_cond st) eqn:Hc; try discriminate.
  unfold loop_cond in Hc. apply andb_true_iff in Hc.
  destruct Hc as [_ Hc]. apply Z.ltb_lt in Hc.
  unfold loop_body, PyFloat.truediv. rewrite Hdiv by lia.
  cbn [bind of_result]. apply IH. cbn [n]. lia.
Qed.

(** X3.  For all doubles [x] and [df] and every libm, the call under
    CPython's [math] returns a float, raises ValueError or raises
    OverflowError.  It never raises ZeroDivisionError: a divisor [k + n] of
    the loop is zero only for [k = -n], and then [k + 1] is a pole of
    lgamma, which has raised before the loop.  With 1999 executions of the
    body allowed, the loop has ended. *)
Theorem chi2_exceptions (M : Libm) (fuel : nat) (x df : float) :
  (1999 <= fuel)%nat ->
  (exists v, chi2_cdf_upper_tail (PyMath.cpython M) fuel x df = Ok v) \/
  chi2_cdf_upper_tail (PyMath.cpython M) fuel x df = Raise ValueError \/
  chi2_cdf_upper_tail (PyMath.cpython M) fuel x df = Raise OverflowError.
Proof.
  intros Hfuel. destruct (x <=? 0) eqn:Hx.
  - left. exists 1. apply chi2_guard. exact Hx.
  - rewrite chi2_positive_branch by exact Hx.
    cbn [math_log math_lgamma math_exp PyMath.cpython].
    destruct (PyMath.log M (x / 2)) as [l|e] eqn:Hl; cbn [bind of_result].
    2: { right. left. rewrite (log_error _ _ _ Hl). reflexivity. }
    destruct (PyMath.lgamma M (df / 2 + 1)) as [g|e] eqn:Hg;
      cbn [bind of_result].
    2: { right. destruct (lgamma_error _ _ _ Hg) as [-> | ->]; auto. }
    assert (Hdiv : forall i : Z, (1 <= i < 2000)%Z ->
                     (df / 2 + PyFloat.of_int i =? 0) = false).
    { intros i Hi. destruct (df / 2 + PyFloat.of_int i =? 0) eqn:E;
        [|reflexivity].
      rewrite (divisor_zero_pole M _ i Hi E) in Hg. discriminate. }
    destruct (while_enough_fuel (x / 2) (df / 2) fuel loop_init fuel)
      as [_ Hnf]; [exact Hfuel | exact Hfuel |].
    pose proof (while_no_raise (x / 2) (df / 2) fuel Hdiv loop_init) as Hnr.
    destruct (while fuel (x / 2) (df / 2) loop_init) as [st|e|];
      [| exfalso; apply (Hnr e); [cbn; lia | reflexivity]
       | exfalso; apply Hnf; reflexivity].
    cbn [bind].
    destruct (PyMath.exp M (df / 2 * l - x / 2 - g)) as [v|e] eqn:He;
      cbn [bind of_result].
    + left. eexists. reflexivity.
    + right. destruct (exp_error _ _ _ He) as [-> | ->]; auto.
Qed.

Lemma chi2_exceptions_witness :
  (exists v,
     chi2_cdf_upper_tail (PyMath.cpython sample_libm) 1999 50 (-2) = Ok v) \/
  chi2_cdf_upper_tail (PyMath.cpython sample_libm) 1999 50 (-2) =
    Raise ValueError \/
  chi2_cdf_upper_tail (PyMath.cpython sample_libm) 1999 50 (-2) =
    Raise OverflowError.
Proof.
  exact (chi2_exceptions sample_libm 1999 50 (-2) (le_n 1999)).
Defined.

(** X5.  For [x] not [<= 0] and a [df] for which [df / 2 + 1] is an
    integer [<= 0] (so [df = -2.0, -4.0, ...]), the call raises ValueError
    under CPython's [math], whatever the libm: [math.lgamma] is at a pole,
    when [math.log] has not raised the same before. *)
Theorem chi2_pole_df (M : Libm) (fuel : nat) (x df : float) :
  (x <=? 0) = false ->
  PyFloat.is_integral (df / 2 + 1) && (df / 2 + 1 <=? 0) = true ->
  chi2_cdf_upper_tail (PyMath.cpython M) fuel x df = Raise ValueError.
Proof.
  intros Hx Hpole. rewrite chi2_positive_branch by exact Hx.
  cbn [math_log math_lgamma math_exp PyMath.cpython].
  destruct (PyMath.log M (x / 2)) as [l|e] eqn:Hl; cbn [bind of_result].
  - rewrite (lgamma_pole M _ Hpole). reflexivity.
  - rewrite (log_error _ _ _ Hl). reflexivity.
Qed.

Lemma chi2_pole_df_witness :
  (50 <=? 0) = false /\
  PyFloat.is_integral (-4 / 2 + 1) && (-4 / 2 + 1 <=? 0) = true /\
  chi2_cdf_upper_tail (PyMath.cpython sample_libm) 1999 50 (-4) =
  Raise ValueError.
Proof.
  split; [reflexivity|]. split; [reflexivity|].
  apply chi2_pole_df; reflexivity.
Defined.

(** X6.  For [df > 0] and a finite [t = x/2 > 0] with [k + 1] finite,
    where the platform's log is finite at [t] and its lgamma overflows to an
    infinity at [k + 1] (a huge [df]), the call raises OverflowError. *)
Theorem chi2_lgamma_overflow (M : Libm) (fuel : nat) (x df : float) :
  (0 <? x / 2) = true -> (0 <? df) = true ->
  is_infinity (x / 2) = false ->
  is_finite (libm_log M (x / 2)) = true ->
  is_infinity (df / 2 + 1) = false ->
  is_infinity (libm_lgamma M (df / 2 + 1)) = true ->
  chi2_cdf_upper_tail (PyMath.cpython M) fuel x df = Raise OverflowError.
Proof.
  intros Ht Hdf Htinf Hl Hkinf Hg.
  assert (Hx : (x <=? 0) = false).
  { destruct (x <=? 0) eqn:E; [|reflexivity].
    exfalso. apply ltb_0_strictly_pos in Ht. rewrite div_spec in Ht.
    rewrite leb_spec, Prim2SF_zero in E. rewrite Prim2SF_two in Ht.
    unfold SFleb in E.
    destruct (Prim2SF x) as [s|[|]| |[|] m e]; try discriminate;
      try contradiction.
    revert Ht. unfold SF64div, SFdiv, SFdiv_core_binary.
    set (m' := match _ with Z0 => _ | Zpos _ => _ | Zneg _ => _ end).
    destruct (Z.div_eucl m' 4503599627370496) as [q r].
    unfold binary_round_aux.
    destruct (shr_fexp prec emax q _ _) as [mrs1 e1].
    destruct (shr_fexp prec emax _ e1 loc_Exact) as [mrs3 e3].
    destruct (shr_m mrs3); [| destruct (e3 <=? emax - prec)%Z |];
      intros H; exact H. }
  rewrite chi2_positive_branch by exact Hx.
  cbn [math_log math_lgamma math_exp PyMath.cpython].
  rewrite log_value;
    [| apply strictly_pos_not_nan, ltb_0_strictly_pos; exact Ht
     | apply ltb_leb_false; exact Ht | exact Htinf | exact Hl].
  cbn [bind of_result].
  pose proof (lgamma_argument_pos df Hdf) as Hk1.
  unfold PyMath.lgamma.
  rewrite (strictly_pos_not_nan _ Hk1), Hkinf.
  rewrite (ltb_leb_false 0 (df / 2 + 1))
    by (apply ltb_0_strictly_pos; exact Hk1).
  rewrite andb_false_r. cbv zeta. rewrite Hg. reflexivity.
Qed.

Lemma chi2_lgamma_overflow_witness :
  chi2_cdf_upper_tail (PyMath.cpython overflowing_libm) 1999 50 15 =
  Raise OverflowError.
Proof.
  apply chi2_lgamma_overflow; reflexivity.
Defined.

(** ** A call that returns *)

Lemma chi2_returns_witness :
  chi2_cdf_upper_tail (PyMath.cpython sample_libm) 1999 50 15 =
  Ok (1 - libm_exp sample_libm
            (15 / 2 * libm_log sample_libm (50 / 2) - 50 / 2
             - libm_lgamma sample_libm (15 / 2 + 1))
          * Spec.partial_sum (50 / 2) (15 / 2)).
Proof.
  apply (chi2_returns sample_libm 1999 50 15); reflexivity.
Defined.

(** ** What a call reads *)



(** * Properties of [verify_threshold] *)

(** ** The verdict on the threshold *)

Lemma verdict_50_15_ball :
  forallb verdict_50_15_ok (ulp_ball Ref.exp_50_15 512) = true.
Proof. vm_compute. reflexivity. Qed.

(** The call at [x = 50.0], [df = 15] under an accurate libm, by the value
    of exp. *)
Lemma chi2_50_15_exp (M : Libm) (fuel : nat) :
  accurate_at_50_15 M = true -> (1999 <= fuel)%nat ->
  exists e,
    In e (ulp_ball Ref.exp_50_15 512) /\
    chi2_cdf_upper_tail (PyMath.cpython M) fuel 50 15 =
    Ok (1 - e * sum_50_15).
Proof.
  unfold accurate_at_50_15. intros Hacc Hfuel.
  apply andb_true_iff in Hacc. destruct Hacc as [Hacc Hexp].
  apply andb_true_iff in Hacc. destruct Hacc as [Hlog Hlgamma].
  apply near_In in Hlog. apply near_In in Hlgamma.
  set (l := libm_log M 25) in *. set (g := libm_lgamma M 8.5) in *.
  assert (Hl : is_finite l = true).
  { apply (forallb_In is_finite (ulp_ball Ref.ln_25 2)); [|exact Hlog].
    vm_compute. reflexivity. }
  assert (Hg : is_finite g = true).
  { apply (forallb_In is_finite (ulp_ball Ref.lgamma_8_5 16));
      [|exact Hlgamma].
    vm_compute. reflexivity. }
  pose proof (forallb_In _ _ _ Hexp
                (In_log_terms 7.5 25 l g _ _ Hlog Hlgamma)) as Hy.
  cbv beta in Hy. apply near_In in Hy.
  set (e := libm_exp M (7.5 * l - 25 - g)) in *.
  pose proof (forallb_In _ _ _ verdict_50_15_ball Hy) as He.
  unfold verdict_50_15_ok in He. cbv zeta in He.
  apply andb_true_iff in He. destruct He as [He _].
  apply andb_true_iff in He. destruct He as [He _].
  apply andb_true_iff in He. destruct He as [He _].
  apply andb_true_iff in He. destruct He as [Hfin _].
  exists e. split; [exact Hy|].
  rewrite chi2_positive_branch by reflexivity.
  change (50 / 2) with 25. change (15 / 2) with 7.5.
  change (7.5 + 1) with 8.5.
  cbn [math_log math_lgamma math_exp PyMath.cpython].
  rewrite log_value by (try reflexivity; exact Hl).
  rewrite lgamma_value by (try reflexivity; exact Hg).
  cbn [bind of_result]. fold l g.
  destruct (while_enough_fuel 25 7.5 fuel loop_init 1999) as [E _];
    [exact Hfuel | apply le_n |].
  destruct series_at_50_15 as [st [Hst Hsum]].
  rewrite E, Hst. cbn [bind].
  rewrite exp_value by exact Hfin.
  cbn [bind of_result]. fold e. rewrite Hsum. reflexivity.
Qed.

(** What a sequence prints. *)
Lemma out_and_then {A B : Type} (m : Run A) (f : A -> Run B) :
  fst (and_then m f) =
  fst m ++ match snd m with Ok a => fst (f a) | _ => [] end.
Proof.
  unfold and_then. destruct (snd m); cbn [fst]; try reflexivity;
    symmetry; apply app_nil_r.
Qed.

Lemma prints_and_then {A B : Type} (s : String.string) (m : Run A)
  (f : A -> Run B) :
  prints s (fst (and_then m f)) =
  prints s (fst m)
  || match snd m with Ok a => prints s (fst (f a)) | _ => false end.
Proof.
  rewrite out_and_then. unfold prints. rewrite existsb_app.
  destruct (snd m); try reflexivity.
Qed.

Lemma snd_and_then {A B : Type} (m : Run A) (f : A -> Run B) :
  snd (and_then m f) =
  match snd m with Ok a => snd (f a) | Raise e => Raise e
                 | OutOfFuel => OutOfFuel end.
Proof. unfold and_then. destruct (snd m); reflexivity. Qed.

Ltac out_step :=
  rewrite out_and_then;
  cbn [fst snd print call done app of_result].

Ltac prints_step s :=
  rewrite prints_and_then;
  cbn [fst snd print call done of_result];
  repeat match goal with
         | |- context [prints s [?l]] =>
             first [ change (prints s [l]) with false
                   | change (prints s [l]) with true ]
         | |- context [prints s []] => change (prints s []) with false
         end;
  cbn [orb].

(** The report from its start to the verdict, for a rate that is not
    zero: which of the two verdict lines starts a printed line. *)
Ltac to_verdict s Hchi Hnz :=
  unfold verify_threshold; cbv zeta;
  change (PyFloat.of_int 15) with 15; rewrite Hchi;
  change (PyFloat.of_int 1) with 1; change (PyFloat.of_int 100) with 100;
  change (PyFloat.of_int 128) with 128;
  do 14 prints_step s; do 9 prints_step s;
  unfold PyFloat.truediv at 1; rewrite Hnz; do 4 prints_step s;
  unfold PyFloat.truediv at 1;
  change (0x1.4f8b588e368f1p-17 =? 0) with false; cbv iota; prints_step s;
  unfold PyFloat.truediv at 1;
  change (0x1.4f8b588e368f1p-17 =? 0) with false; cbv iota; prints_step s;
  do 4 prints_step s;
  match goal with
  | |- context [abs (?f - 0x1.4f8b588e368f1p-17) / 0x1.4f8b588e368f1p-17 * 100] =>
      change (abs (f - 0x1.4f8b588e368f1p-17) / 0x1.4f8b588e368f1p-17 * 100)
        with (relative_error_of f)
  end.

(** The report after the verdict prints neither verdict line. *)
Ltac after_verdict s Hchi :=
  prints_step s;
  match goal with
  | |- context [of_result (?g (1 - ?f))] => destruct (g (1 - f)) as [v|err]
  end; cbn [of_result]; [|reflexivity];
  cbn [for_each thresholds];
  change (PyFloat.of_int 15) with 15; rewrite ?Hchi;
  repeat match goal with
         | |- context [chi2_cdf_upper_tail ?m ?fu ?t 15] =>
             destruct (chi2_cdf_upper_tail m fu t 15) as [?v|?err|]
         end;
  vm_compute; reflexivity.

Lemma verdict_verified (math : MathModule) (math_log2 : float -> result float)
  (fuel : nat) (fpr : float) :
  chi2_cdf_upper_tail math fuel 50 15 = Ok fpr -> (fpr =? 0) = false ->
  prints verified_text (fst (verify_threshold math math_log2 fuel)) =
  (relative_error_of fpr <? 1).
Proof.
  intros Hchi Hnz. to_verdict verified_text Hchi Hnz.
  destruct (relative_error_of fpr <? 1).
  - prints_step verified_text. reflexivity.
  - prints_step verified_text. after_verdict verified_text Hchi.
Qed.

Lemma verdict_warning (math : MathModule) (math_log2 : float -> result float)
  (fuel : nat) (fpr : float) :
  chi2_cdf_upper_tail math fuel 50 15 = Ok fpr -> (fpr =? 0) = false ->
  prints warning_text (fst (verify_threshold math math_log2 fuel)) =
  negb (relative_error_of fpr <? 1).
Proof.
  intros Hchi Hnz. to_verdict warning_text Hchi Hnz.
  destruct (relative_error_of fpr <? 1).
  - prints_step warning_text. after_verdict warning_text Hchi.
  - prints_step warning_text. reflexivity.
Qed.

(** X7.  When the call at the threshold returns a rate [fpr] that is not
    zero, the report prints a line that starts with the text of the
    verified verdict exactly when [relative_error < 1], and a line that
    starts with the text of the warning exactly when not: one of the two
    verdicts, never both, and no other line of the report starts so. *)
Theorem verify_threshold_verdict (math : MathModule)
  (math_log2 : float -> result float) (fuel : nat) (fpr : float) :
  chi2_cdf_upper_tail math fuel 50 15 = Ok fpr -> (fpr =? 0) = false ->
  prints verified_text (fst (verify_threshold math math_log2 fuel)) =
    (relative_error_of fpr <? 1) /\
  prints warning_text (fst (verify_threshold math math_log2 fuel)) =
    negb (relative_error_of fpr <? 1).
Proof.
  intros Hchi Hnz. split.
  - apply verdict_verified; assumption.
  - apply verdict_warning; assumption.
Qed.

Lemma verify_threshold_verdict_witness :
  prints verified_text
    (fst (verify_threshold (PyMath.cpython sample_libm)
            (cpython_log2 (fun _ => 0)) 1999)) = false /\
  prints warning_text
    (fst (verify_threshold (PyMath.cpython sample_libm)
            (cpython_log2 (fun _ => 0)) 1999)) = true.
Proof.
  eassert (E : chi2_cdf_upper_tail (PyMath.cpython sample_libm) 1999 50 15
               = Ok _) by (vm_compute; reflexivity).
  exact (verify_threshold_verdict (PyMath.cpython sample_libm)
           (cpython_log2 (fun _ => 0)) 1999 _ E eq_refl).
Defined.

(** X8.  On a platform whose log, lgamma and exp are accurate to a few ulps
    at the arguments of the call, [verify_threshold()] computes a relative
    error between 20 and 21 percent, prints the warning line with it, and
    does not print that the threshold is verified. *)
Theorem verify_threshold_warns (M : Libm) (math_log2 : float -> result float)
  (fuel : nat) :
  accurate_at_50_15 M = true -> (1999 <= fuel)%nat ->
  exists fpr,
    chi2_cdf_upper_tail (PyMath.cpython M) fuel 50 15 = Ok fpr /\
    (20 <=? relative_error_of fpr) && (relative_error_of fpr <=? 21) = true /\
    In (warning_line (relative_error_of fpr))
       (fst (verify_threshold (PyMath.cpython M) math_log2 fuel)) /\
    prints verified_text
       (fst (verify_threshold (PyMath.cpython M) math_log2 fuel)) = false.
Proof.
  intros Hacc Hfuel.
  destruct (chi2_50_15_exp M fuel Hacc Hfuel) as [e [He Hchi]].
  pose proof (forallb_In _ _ _ verdict_50_15_ball He) as Hv.
  unfold verdict_50_15_ok in Hv. cbv zeta in Hv.
  set (fpr := 1 - e * sum_50_15) in *.
  apply andb_true_iff in Hv. destruct Hv as [Hv Hhi].
  apply andb_true_iff in Hv. destruct Hv as [Hv Hlo].
  apply andb_true_iff in Hv. destruct Hv as [Hv Hrel].
  apply andb_true_iff in Hv. destruct Hv as [_ Hnz].
  apply negb_true_iff in Hrel. apply negb_true_iff in Hnz.
  exists fpr. split; [exact Hchi|]. split; [rewrite Hlo, Hhi; reflexivity|].
  split.
  - unfold verify_threshold. cbv zeta.
    change (PyFloat.of_int 15) with 15. rewrite Hchi.
    change (PyFloat.of_int 1) with 1. change (PyFloat.of_int 100) with 100.
    change (PyFloat.of_int 128) with 128.
    do 14 out_step. do 9 out_step.
    unfold PyFloat.truediv at 1. rewrite Hnz. do 4 out_step.
    unfold PyFloat.truediv at 1.
    change (0x1.4f8b588e368f1p-17 =? 0) with false. cbv iota. out_step.
    unfold PyFloat.truediv at 1.
    change (0x1.4f8b588e368f1p-17 =? 0) with false. cbv iota. out_step.
    do 4 out_step.
    change (abs (fpr - 0x1.4f8b588e368f1p-17) / 0x1.4f8b588e368f1p-17 * 100)
      with (relative_error_of fpr).
    rewrite Hrel. out_step.
    do 29 apply in_cons. apply in_eq.
  - rewrite (verdict_verified _ math_log2 fuel fpr Hchi Hnz). exact Hrel.
Qed.

Lemma verify_threshold_warns_witness :
  accurate_at_50_15 sample_libm = true /\
  prints verified_text
    (fst (verify_threshold (PyMath.cpython sample_libm)
            (cpython_log2 (fun _ => 0)) 1999)) = false.
Proof.
  split; [vm_compute; reflexivity|].
  destruct (verify_threshold_warns sample_libm (cpython_log2 (fun _ => 0))
              1999) as [fpr [_ [_ [_ H]]]];
    [vm_compute; reflexivity | apply le_n | exact H].
Defined.

(** X9.  If the call at the threshold returns a rate equal to zero,
    [verify_threshold()] raises ZeroDivisionError at [1/fpr], after 22
    printed lines: the rate is divided unguarded. *)
Theorem verify_threshold_zero_rate (math : MathModule)
  (math_log2 : float -> result float) (fuel : nat) (fpr : float) :
  chi2_cdf_upper_tail math fuel 50 15 = Ok fpr -> (fpr =? 0) = true ->
  snd (verify_threshold math math_log2 fuel) = Raise ZeroDivisionError /\
  List.length (fst (verify_threshold math math_log2 fuel)) = 22%nat.
Proof.
  intros Hchi Hz. unfold verify_threshold. cbv zeta.
  change (PyFloat.of_int 15) with 15. rewrite Hchi.
  change (PyFloat.of_int 1) with 1. split.
  - do 23 (rewrite snd_and_then; cbn [fst snd print call done of_result]).
    rewrite snd_and_then. unfold PyFloat.truediv at 1. rewrite Hz.
    reflexivity.
  - do 14 out_step. do 9 out_step. rewrite out_and_then.
    unfold PyFloat.truediv. rewrite Hz. reflexivity.
Qed.

Lemma verify_threshold_zero_rate_witness :
  snd (verify_threshold (PyMath.cpython zero_rate_libm)
         (cpython_log2 (fun _ => 0)) 1999) = Raise ZeroDivisionError.
Proof.
  eassert (E : chi2_cdf_upper_tail (PyMath.cpython zero_rate_libm) 1999 50 15
               = Ok _) by (vm_compute; reflexivity).
  exact (proj1 (verify_threshold_zero_rate (PyMath.cpython zero_rate_libm)
                  (cpython_log2 (fun _ => 0)) 1999 _ E eq_refl)).
Defined.

(** ** How the report ends *)

Ltac snd_step :=
  rewrite snd_and_then;
  cbn [fst snd print call done of_result].

(** The report up to the verdict, on what it prints and how it ends. *)
Ltac run_to_verdict step Hchi Hnz :=
  unfold verify_threshold; cbv zeta;
  change (PyFloat.of_int 15) with 15; rewrite Hchi;
  change (PyFloat.of_int 1) with 1; change (PyFloat.of_int 100) with 100;
  change (PyFloat.of_int 128) with 128;
  do 14 step; do 9 step;
  unfold PyFloat.truediv at 1; rewrite Hnz; do 4 step;
  unfold PyFloat.truediv at 1;
  change (0x1.4f8b588e368f1p-17 =? 0) with false; cbv iota; step;
  unfold PyFloat.truediv at 1;
  change (0x1.4f8b588e368f1p-17 =? 0) with false; cbv iota; step;
  do 4 step.

(** The report after the verdict, when every call returns. *)
Ltac run_after_verdict step Hchi Hlog Ha Hb Hc :=
  do 2 step; rewrite Hlog; cbn [of_result]; do 5 step;
  unfold PyFloat.truediv at 1; change (128 =? 0) with false; cbv iota;
  do 12 step;
  cbn [for_each thresholds];
  change (PyFloat.of_int 15) with 15;
  step; rewrite Ha; do 2 step; rewrite Hb; do 2 step; rewrite Hchi;
  do 2 step; rewrite Hc; reflexivity.

(** X10.  When the call at the threshold returns a rate that is not zero,
    [math.log2(1 - fpr)] returns, and the call returns at each threshold of
    the table, [verify_threshold()] ends normally after exactly 70 printed
    lines, and the table row of the threshold in use shows the rate of the
    Result section. *)
Theorem verify_threshold_completes (math : MathModule)
  (math_log2 : float -> result float) (fuel : nat) (fpr l : float) :
  chi2_cdf_upper_tail math fuel 50 15 = Ok fpr -> (fpr =? 0) = false ->
  math_log2 (1 - fpr) = Value l ->
  (forall t, In t table_thresholds ->
     exists v, chi2_cdf_upper_tail math fuel t 15 = Ok v) ->
  snd (verify_threshold math math_log2 fuel) = Ok tt /\
  List.length (fst (verify_threshold math math_log2 fuel)) = 70%nat /\
  In (current_row fpr) (fst (verify_threshold math math_log2 fuel)).
Proof.
  intros Hchi Hnz Hlog Hrows.
  destruct (Hrows 0x1.2d9999999999ap+5) as [a Ha];
    [cbn; auto|].
  destruct (Hrows 0x1.62147ae147ae1p+5) as [b Hb];
    [cbn; auto|].
  destruct (Hrows 0x1.c3eb851eb851fp+5) as [c Hc];
    [cbn; auto|].
  split; [|split].
  - run_to_verdict snd_step Hchi Hnz.
    destruct (_ <? 1); run_after_verdict snd_step Hchi Hlog Ha Hb Hc.
  - run_to_verdict out_step Hchi Hnz.
    destruct (_ <? 1); run_after_verdict out_step Hchi Hlog Ha Hb Hc.
  - run_to_verdict out_step Hchi Hnz.
    destruct (_ <? 1);
      (do 2 out_step; rewrite Hlog; cbn [of_result]; do 5 out_step;
       unfold PyFloat.truediv at 1; change (128 =? 0) with false; cbv iota;
       do 12 out_step;
       cbn [for_each thresholds];
       change (PyFloat.of_int 15) with 15;
       out_step; rewrite Ha; do 2 out_step; rewrite Hb; do 2 out_step;
       rewrite Hchi; do 2 out_step; rewrite Hc;
       do 48 apply in_cons; apply in_eq).
Qed.

Lemma verify_threshold_completes_witness :
  snd (verify_threshold (PyMath.cpython sample_libm)
         (cpython_log2 (fun _ => 0)) 1999) = Ok tt /\
  List.length (fst (verify_threshold (PyMath.cpython sample_libm)
                      (cpython_log2 (fun _ => 0)) 1999)) = 70%nat.
Proof.
  eassert (E : chi2_cdf_upper_tail (PyMath.cpython sample_libm) 1999 50 15
               = Ok _) by (vm_compute; reflexivity).
  destruct (verify_threshold_completes (PyMath.cpython sample_libm)
              (cpython_log2 (fun _ => 0)) 1999 _ 0 E eq_refl eq_refl)
    as [H1 [H2 _]].
  - intros t [<- | [<- | [<- | [<- | []]]]]; eexists; vm_compute; reflexivity.
  - split; [exact H1 | exact H2].
Defined.

(** X11.  An exception of the call at the threshold leaves
    [verify_threshold()] as it is, after the 13 lines of the heading:
    nothing catches it and nothing of the result is printed. *)
Theorem verify_threshold_propagates (math : MathModule)
  (math_log2 : float -> result float) (fuel : nat) (e : PyExc) :
  chi2_cdf_upper_tail math fuel 50 15 = Raise e ->
  snd (verify_threshold math math_log2 fuel) = Raise e /\
  List.length (fst (verify_threshold math math_log2 fuel)) = 13%nat.
Proof.
  intros Hchi. unfold verify_threshold. cbv zeta.
  change (PyFloat.of_int 15) with 15. rewrite Hchi. split.
  - do 13 snd_step. rewrite snd_and_then. reflexivity.
  - do 13 out_step. rewrite out_and_then. reflexivity.
Qed.

Lemma verify_threshold_propagates_witness :
  snd (verify_threshold (PyMath.cpython overflowing_libm)
         (cpython_log2 (fun _ => 0)) 1999) = Raise OverflowError.
Proof.
  exact (proj1 (verify_threshold_propagates (PyMath.cpython overflowing_libm)
                  (cpython_log2 (fun _ => 0)) 1999 OverflowError eq_refl)).
Defined.
